(** * shape-guard: a shallow embedding of the shape matcher

    The development follows the Python package [shapeguard]:
    - [errors.py]  the diagnostic classes ([ShapeGuardError] and its three
      subclasses) and their rendering;
    - [spec.py]    [match_shape], [_match_dim], [check_shape], [format_spec]
      and the ellipsis helpers;
    - [_compat.py] [get_shape].
    [core.py] ([Dim], [UnificationContext], [_EllipsisType]) is imported by
    [spec.py] but is not among the sources; it is modelled from the
    specification text (sections 3, 4.1 and 4.2) and marked as such.

    Python integers are [Z].  A tuple is a [list].  A call that may raise and
    that mutates the binding store is a function from the store to an outcome
    and the store left behind, so the store an exception leaves is visible. *)

From stdpp Require Import base list strings pretty gmap.
From Stdlib Require Import ZArith Lia.

Open Scope Z_scope.

(** ** core.py: symbolic dimensions and the binding store *)

(** Modelled from the spec: [core.Dim] is missing from the sources.  A
    symbolic dimension has a display name; "identity is by reference/object
    identity, not by name".  [dim_id] stands for the object's identity. *)
Record Dim := mkDim { dim_id : positive; Dim_name : string }.

(** Python's [a is b] on two [Dim] objects. *)
Definition Dim_is (a b : Dim) : bool := bool_decide (dim_id a = dim_id b).

(** Modelled from the spec: [core.UnificationContext] is missing from the
    sources.  "A mapping from Symbolic Dimension (by identity) to a record
    {value, source}, insertion order ... preserved for diagnostic formatting
    (first-bound order)": a Python dict, kept as an association list in
    insertion order. *)
Definition UnificationContext : Type := list (Dim * (Z * string)).

(** Modelled from the spec: the dict lookup of [dim] in the store, keys
    compared by identity ("two distinct Symbolic Dimensions sharing a name are
    independent entries"). *)
Fixpoint ctx_lookup (dim : Dim) (ctx : UnificationContext) : option (Z * string) :=
  match ctx with
  | [] => None
  | (d, b) :: rest => if Dim_is d dim then Some b else ctx_lookup dim rest
  end.

(** The dimension-to-value content of a store, provenance labels dropped. *)
Definition ctx_values (ctx : UnificationContext) : list (Dim * Z) :=
  map (fun e => (e.1, e.2.1)) ctx.

(** [sep.join(parts)] *)
Fixpoint join (sep : string) (parts : list string) : string :=
  match parts with
  | [] => ""
  | [p] => p
  | p :: rest => p +:+ sep +:+ join sep rest
  end.

(** ** errors.py: the diagnostic classes *)

(** A Python object of a type the model does not interpret, known by what
    [str] and [repr] give for it. *)
Record PyObj := mkPyObj { py_str : string; py_repr : string }.

(** An element of a shape specification, by its runtime type:
    [int | Dim | None | ...], an instance of [core._EllipsisType] (the class is
    missing from the sources, so the instance carries its own [str]/[repr]),
    or any other object. *)
Inductive SpecElem :=
| SInt (n : Z)
| SDim (d : Dim)
| SNone
| SEllipsis
| SEllipsisType (o : PyObj)
| SOther (o : PyObj).

Definition ShapeSpec := list SpecElem.
Definition SpecPart := list SpecElem.

(** The class of a diagnostic.  [UnificationError] stores five attributes
    of its own; the other two subclasses store none. *)
Inductive ErrorClass :=
| UnificationErrorCls (dim : Dim) (expected_value : Z) (expected_source : string)
    (actual_value : Z) (actual_source : string)
| RankMismatchErrorCls
| DimensionMismatchErrorCls.

(** [ShapeGuardError]: the attributes set by [ShapeGuardError.__init__],
    with the message given to [Exception.__init__]. *)
Record ShapeGuardError := mkShapeGuardError {
  err_class : ErrorClass;
  message : string;
  function : option string;
  argument : option string;
  expected : option ShapeSpec;
  actual : option (list Z);
  reason : option string;
  bindings : option string
}.

(** [UnificationError.__init__]: only [reason] is handed to the base class. *)
Definition UnificationError (dim : Dim) (expected_value : Z) (expected_source : string)
    (actual_value : Z) (actual_source : string) : ShapeGuardError :=
  let reason :=
    "dimension '" +:+ Dim_name dim +:+ "' bound to " +:+ pretty expected_value
      +:+ " from " +:+ expected_source +:+ ", but got " +:+ pretty actual_value
      +:+ " from " +:+ actual_source in
  {| err_class := UnificationErrorCls dim expected_value expected_source
                    actual_value actual_source;
     message := reason;
     function := None; argument := None; expected := None; actual := None;
     reason := Some reason;
     bindings := None |}.

(** [expected_rank: int | str] inside an f-string. *)
Definition fmt_rank (expected_rank : Z + string) : string :=
  match expected_rank with
  | inl n => pretty n
  | inr s => s
  end.

(** [RankMismatchError.__init__] with [function] and [argument] left at
    their default [None]. *)
Definition RankMismatchError (expected_rank : Z + string) (actual_rank : Z)
    (expected_shape : ShapeSpec) (actual_shape : list Z) (bindings : option string)
    : ShapeGuardError :=
  let reason :=
    "expected rank " +:+ fmt_rank expected_rank +:+ ", got rank " +:+ pretty actual_rank in
  {| err_class := RankMismatchErrorCls;
     message := reason;
     function := None; argument := None;
     expected := Some expected_shape; actual := Some actual_shape;
     reason := Some reason;
     bindings := bindings |}.

(** [DimensionMismatchError.__init__], same defaults. *)
Definition DimensionMismatchError (dim_index expected_value actual_value : Z)
    (expected_shape : ShapeSpec) (actual_shape : list Z) (bindings : option string)
    : ShapeGuardError :=
  let reason :=
    "dim[" +:+ pretty dim_index +:+ "] expected " +:+ pretty expected_value
      +:+ ", got " +:+ pretty actual_value in
  {| err_class := DimensionMismatchErrorCls;
     message := reason;
     function := None; argument := None;
     expected := Some expected_shape; actual := Some actual_shape;
     reason := Some reason;
     bindings := bindings |}.

(** [e.argument = name] *)
Definition set_argument (e : ShapeGuardError) (name : string) : ShapeGuardError :=
  {| err_class := err_class e; message := message e; function := function e;
     argument := Some name;
     expected := expected e; actual := actual e; reason := reason e;
     bindings := bindings e |}.

(** What a call can raise: a diagnostic, or one of the builtin exceptions
    the code raises ([ValueError], [TypeError]) or a tuple access could raise
    ([IndexError]). *)
Inductive exn :=
| ShapeGuardErr (e : ShapeGuardError)
| ValueError (msg : string)
| TypeError (msg : string)
| IndexError (msg : string).

Definition is_diagnostic (e : exn) : bool :=
  match e with ShapeGuardErr _ => true | _ => false end.

Definition is_IndexError (e : exn) : bool :=
  match e with IndexError _ => true | _ => false end.

Definition is_rank_mismatch (e : exn) : bool :=
  match e with
  | ShapeGuardErr d =>
      match err_class d with RankMismatchErrorCls => true | _ => false end
  | _ => false
  end.

(** ** Calls that raise and mutate the store *)

Inductive outcome (A : Type) :=
| Return (a : A)
| Raise (e : exn).
Arguments Return {A} a.
Arguments Raise {A} e.

Definition raised {A} (o : outcome A) : bool :=
  match o with Raise _ => true | Return _ => false end.

Definition M (A : Type) : Type := UnificationContext -> outcome A * UnificationContext.

Definition ret {A} (a : A) : M A := fun ctx => (Return a, ctx).
Definition raise {A} (e : exn) : M A := fun ctx => (Raise e, ctx).
Definition and_then {A B} (m : M A) (k : A -> M B) : M B :=
  fun ctx =>
    match m ctx with
    | (Return a, ctx') => k a ctx'
    | (Raise e, ctx') => (Raise e, ctx')
    end.

Notation "'let!' x ':=' m 'in' k" := (and_then m (fun x => k))
  (at level 10, x name, m at level 100, k at level 200, only parsing).
Notation "m ;;; k" := (and_then m (fun _ => k))
  (at level 100, k at level 200, only parsing, right associativity).

(** [for x in items: body(x)] *)
Fixpoint for_each {A} (items : list A) (body : A -> M unit) : M unit :=
  match items with
  | [] => ret tt
  | x :: rest => body x ;;; for_each rest body
  end.

(** [enumerate(items)], counting from [start]. *)
Fixpoint enumerate_from {A} (start : Z) (items : list A) : list (Z * A) :=
  match items with
  | [] => []
  | x :: rest => (start, x) :: enumerate_from (start + 1) rest
  end.

Definition enumerate {A} (items : list A) : list (Z * A) := enumerate_from 0 items.

(** [len(t)] *)
Definition len {A} (t : list A) : Z := Z.of_nat (length t).

(** [t[i]] on a tuple: a negative index counts from the end, and an index
    outside [-len(t) .. len(t)-1] raises [IndexError]. *)
Definition tuple_getitem {A} (t : list A) (i : Z) : M A :=
  let j := if i <? 0 then i + len t else i in
  if (0 <=? j) && (j <? len t) then
    match t !! Z.to_nat j with
    | Some a => ret a
    | None => raise (IndexError "tuple index out of range")
    end
  else raise (IndexError "tuple index out of range").

(** ** core.py: [bind] and [format_bindings] *)

(** Modelled from the spec: [UnificationContext.bind] is missing from the
    sources.  "If [dim] is unbound, record {value, source}.  If [dim] is
    already bound to the same value: no-op, success; to a different value:
    fails with a UnificationConflict, carrying the dimension, the previously
    recorded (value, source), and the newly observed (value, source)."  The
    conflict is the [UnificationError] of [errors.py], whose constructor takes
    exactly these five arguments. *)
Definition bind (dim : Dim) (value : Z) (source : string) : M unit :=
  fun ctx =>
    match ctx_lookup dim ctx with
    | None => (Return tt, ctx ++ [(dim, (value, source))])
    | Some (bound_value, bound_source) =>
        if bool_decide (bound_value = value) then (Return tt, ctx)
        else (Raise (ShapeGuardErr
                (UnificationError dim bound_value bound_source value source)), ctx)
    end.

Section Matcher.

(** The two pieces of text of [format_bindings] that the specification
    leaves open: what an empty store renders as ("an explicit no-bindings
    marker rather than an empty string") and what separates two pairs. *)
Variable no_bindings_marker : string.
Variable bindings_separator : string.

(** Modelled from the spec: [UnificationContext.format_bindings] is missing
    from the sources.  "Renders all current bindings as name=value pairs in
    first-bound order; an empty store renders as an explicit no-bindings
    marker." *)
Definition format_bindings (ctx : UnificationContext) : string :=
  match ctx with
  | [] => no_bindings_marker
  | _ => join bindings_separator
           (map (fun e => Dim_name e.1 +:+ "=" +:+ pretty e.2.1) ctx)
  end.

(** ** spec.py *)

(** [s is ... or isinstance(s, _EllipsisType)] *)
Definition is_ellipsis (s : SpecElem) : bool :=
  match s with
  | SEllipsis | SEllipsisType _ => true
  | _ => false
  end.

Definition _has_ellipsis (spec : ShapeSpec) : bool := existsb is_ellipsis spec.

Definition _filter_ellipsis (items : ShapeSpec) : SpecPart :=
  List.filter (fun s => negb (is_ellipsis s)) items.

(** [[i for i, s in enumerate(spec) if s is ... or isinstance(s, _EllipsisType)]] *)
Definition ellipsis_indices (spec : ShapeSpec) : list Z :=
  map fst (List.filter (fun p => is_ellipsis (snd p)) (enumerate spec)).

(** [spec[:idx]] and [spec[idx + 1:]] for an index [0 <= idx]. *)
Definition slice_to {A} (t : list A) (idx : Z) : list A := take (Z.to_nat idx) t.
Definition slice_from {A} (t : list A) (idx : Z) : list A := drop (Z.to_nat idx) t.

Definition _split_ellipsis_spec (spec : ShapeSpec) : exn + (SpecPart * SpecPart) :=
  let indices := ellipsis_indices spec in
  if 1 <? len indices then
    inl (ValueError "Shape spec cannot contain more than one ellipsis")
  else
    match indices with
    | [] => inr (_filter_ellipsis spec, [])
    | idx :: _ =>
        inr (_filter_ellipsis (slice_to spec idx),
             _filter_ellipsis (slice_from spec (idx + 1)))
    end.

(** The [TypeError] of [_match_dim], from the [repr] of the offending element. *)
Definition invalid_element (index : Z) (repr : string) : exn :=
  TypeError ("Invalid spec element at position " +:+ pretty index +:+ ": "
               +:+ repr +:+ " (expected int, Dim, None, or ...)").

Definition _match_dim (actual_dim : Z) (spec_dim : SpecElem) (index : Z)
    (actual_shape : list Z) (spec : ShapeSpec) (ctx : UnificationContext)
    (source : string) : outcome unit * UnificationContext :=
  let dim_source := source +:+ "[" +:+ pretty index +:+ "]" in
  match spec_dim with
  | SNone => (Return tt, ctx)
  | SDim d => bind d actual_dim dim_source ctx
  | SInt n =>
      if bool_decide (actual_dim <> n) then
        (Raise (ShapeGuardErr
           (DimensionMismatchError index n actual_dim spec actual_shape
              (Some (format_bindings ctx)))), ctx)
      else (Return tt, ctx)
  | SEllipsis => (Raise (invalid_element index "Ellipsis"), ctx)
  | SEllipsisType o => (Raise (invalid_element index (py_repr o)), ctx)
  | SOther o => (Raise (invalid_element index (py_repr o)), ctx)
  end.

(** The body shared by the three loops of [match_shape]:
    [_match_dim(actual[idx], spec_dim, idx, actual, spec, ctx, source)]. *)
Definition match_at (actual : list Z) (spec : ShapeSpec) (source : string)
    (idx : Z) (spec_dim : SpecElem) : M unit :=
  let! actual_dim := tuple_getitem actual idx in
  fun ctx => _match_dim actual_dim spec_dim idx actual spec ctx source.

Definition match_shape (actual : list Z) (spec : ShapeSpec) (ctx : UnificationContext)
    (source : string) : outcome unit * UnificationContext :=
  if _has_ellipsis spec then
    match _split_ellipsis_spec spec with
    | inl e => (Raise e, ctx)
    | inr (before, after) =>
        let required_dims := len before + len after in
        if len actual <? required_dims then
          (Raise (ShapeGuardErr
             (RankMismatchError (inr (pretty required_dims +:+ "+")) (len actual)
                spec actual (Some (format_bindings ctx)))), ctx)
        else
          (for_each (enumerate before)
             (fun p => match_at actual spec source p.1 p.2) ;;;
           let offset := len actual - len after in
           for_each (enumerate after)
             (fun p => let actual_idx := offset + p.1 in
                       match_at actual spec source actual_idx p.2)) ctx
    end
  else if bool_decide (len actual <> len spec) then
    (Raise (ShapeGuardErr
       (RankMismatchError (inl (len spec)) (len actual)
          spec actual (Some (format_bindings ctx)))), ctx)
  else
    let spec_dims := _filter_ellipsis spec in
    for_each (enumerate spec_dims)
      (fun p => match_at actual spec source p.1 p.2) ctx.

(** [format_spec] *)
Definition fmt_dim (d : SpecElem) : string :=
  match d with
  | SNone => "*"
  | SEllipsis | SEllipsisType _ => "..."
  | SDim d => Dim_name d
  | SInt n => pretty n
  | SOther o => py_str o
  end.

Definition format_spec (spec : ShapeSpec) : string :=
  "(" +:+ join ", " (map fmt_dim spec) +:+ ")".

(** ** _compat.py and [check_shape] *)

(** The argument [x: Any] of [check_shape], as far as [get_shape] looks at
    it: the name of its type and its [shape] attribute, if it has one.  The
    values covered are those whose [shape] is an iterable of integers, on
    which [tuple(int(d) for d in x.shape)] is the tuple of its entries; a
    [shape] that cannot be iterated or holds an entry [int] rejects makes
    [get_shape] raise from that expression, and is not a [PyValue]. *)
Record PyValue := mkPyValue { type_name : string; shape_attr : option (list Z) }.

Definition get_shape (x : PyValue) : exn + list Z :=
  match shape_attr x with
  | None =>
      inl (TypeError ("Cannot get shape from '" +:+ type_name x
                        +:+ "': object has no 'shape' attribute"))
  | Some shape => inr shape
  end.

(** [check_shape] receives and returns a reference to a store object, so
    here the stores live in a heap and [ctx] is an address, or [None].  The
    call mutates the object at that address in place: the store
    [match_shape] leaves is written back, also when it raises.  (An address
    is always one the heap holds; the total lookup only makes the function
    defined everywhere.) *)
Definition check_shape (x : PyValue) (spec : ShapeSpec) (name : string)
    (ctx : option positive) (heap : gmap positive UnificationContext)
    : outcome positive * gmap positive UnificationContext :=
  let '(ctx, heap) :=
    match ctx with
    | None => let fresh_ctx := fresh (dom heap) in (fresh_ctx, <[fresh_ctx := []]> heap)
    | Some ctx => (ctx, heap)
    end in
  match get_shape x with
  | inl e => (Raise e, heap)
  | inr actual =>
      let '(result, store) := match_shape actual spec (heap !!! ctx) name in
      let heap := <[ctx := store]> heap in
      match result with
      | Return _ => (Return ctx, heap)
      | Raise (ShapeGuardErr e) => (Raise (ShapeGuardErr (set_argument e name)), heap)
      | Raise e => (Raise e, heap)
      end
  end.

(** ** errors.py: rendering *)

(** [str(Dim)] is decided by [core.py], which is missing: a parameter. *)
Variable Dim_str : Dim -> string.

(** [str(d)] for an element of a specification tuple. *)
Definition str_elem (d : SpecElem) : string :=
  match d with
  | SInt n => pretty n
  | SDim d => Dim_str d
  | SNone => "None"
  | SEllipsis => "Ellipsis"
  | SEllipsisType o => py_str o
  | SOther o => py_str o
  end.

(** [ShapeGuardError._format_shape] on a tuple, which is what [match_shape]
    stores as [expected] and [actual]. *)
Definition _format_shape (shape : list SpecElem) : string :=
  "(" +:+ join ", " (map str_elem shape) +:+ ")".

(** [if s:] for [s: str | None] *)
Definition truthy (s : option string) : option string :=
  match s with
  | Some s => if bool_decide (s = "") then None else Some s
  | None => None
  end.

Definition line_if {A} (o : option A) (render : A -> string) : list string :=
  match o with
  | Some a => [render a]
  | None => []
  end.

(** [ShapeGuardError.__str__] *)
Definition ShapeGuardError_lines (self : ShapeGuardError) : list string :=
  ["ShapeGuardError:"]
    ++ line_if (truthy (function self)) (fun f => "  function: " +:+ f)
    ++ line_if (truthy (argument self)) (fun a => "  argument: " +:+ a)
    ++ line_if (expected self) (fun e => "  expected: " +:+ _format_shape e)
    ++ line_if (actual self) (fun a => "  actual:   " +:+ _format_shape (map SInt a))
    ++ line_if (truthy (reason self)) (fun r => "  reason:   " +:+ r)
    ++ line_if (truthy (bindings self)) (fun b => "  bindings: " +:+ b).

Definition newline : string := String (Ascii.ascii_of_nat 10) EmptyString.

Definition ShapeGuardError_str (self : ShapeGuardError) : string :=
  join newline (ShapeGuardError_lines self).

(** ** Definitions used to state the properties *)

(** [ellipsis_indices] with the count starting at [start]. *)
Definition ellipsis_indices_from (start : Z) (spec : ShapeSpec) : list Z :=
  map fst (List.filter (fun p => is_ellipsis (snd p)) (enumerate_from start spec)).

(** An element [_match_dim] has a matching branch for: an [int], a [Dim]
    or [None]. *)
Definition is_matchable (d : SpecElem) : bool :=
  match d with
  | SInt _ | SDim _ | SNone => true
  | _ => false
  end.

(** The [repr] that [_match_dim] puts in its [TypeError], for the elements
    it rejects. *)
Definition rejected_repr (d : SpecElem) : string :=
  match d with
  | SEllipsis => "Ellipsis"
  | SEllipsisType o | SOther o => py_repr o
  | _ => ""
  end.

(** The ways [_match_dim] raises; in each the store is the one it was given. *)
Inductive dim_failure (actual_dim : Z) (index : Z) (actual_shape : list Z)
    (spec : ShapeSpec) (ctx : UnificationContext) (source : string)
    : SpecElem -> exn -> Prop :=
| fail_exact n :
    actual_dim <> n ->
    dim_failure actual_dim index actual_shape spec ctx source (SInt n)
      (ShapeGuardErr (DimensionMismatchError index n actual_dim spec actual_shape
                        (Some (format_bindings ctx))))
| fail_symbolic dim bound_value bound_source :
    ctx_lookup dim ctx = Some (bound_value, bound_source) ->
    bound_value <> actual_dim ->
    dim_failure actual_dim index actual_shape spec ctx source (SDim dim)
      (ShapeGuardErr (UnificationError dim bound_value bound_source actual_dim
                        (source +:+ "[" +:+ pretty index +:+ "]")))
| fail_invalid d :
    is_matchable d = false ->
    dim_failure actual_dim index actual_shape spec ctx source d
      (invalid_element index (rejected_repr d)).

(** The rank check of [match_shape] lets the shape through. *)
Definition rank_ok (actual : list Z) (spec : ShapeSpec) : bool :=
  if _has_ellipsis spec then
    match _split_ellipsis_spec spec with
    | inl _ => false
    | inr (before, after) => negb (len actual <? len before + len after)
    end
  else negb (bool_decide (len actual <> len spec)).

(** The (index, element) pairs the loops of [match_shape] go through, in
    the order they do: [enumerate(before)], then [enumerate(after)] with
    [offset] added to each index; or [enumerate(spec_dims)]. *)
Definition elements_in_order (actual : list Z) (spec : ShapeSpec) : list (Z * SpecElem) :=
  if _has_ellipsis spec then
    match _split_ellipsis_spec spec with
    | inl _ => []
    | inr (before, after) =>
        enumerate before ++ enumerate_from (len actual - len after) after
    end
  else enumerate (_filter_ellipsis spec).

(** The outcome is an exception of the kind [P]. *)
Definition raises (P : exn -> bool) {A} (o : outcome A) : bool :=
  match o with
  | Raise e => P e
  | Return _ => false
  end.

(** The pairing of specification elements with positions of the shape that
    the specification describes for an ellipsis (its section 4.3), written
    from its words and not from the code: element [i] of [before] with
    position [i] among the leading [len(before)] positions, element [i] of
    [after] with position [len(actual) - len(after) + i] among the trailing
    [len(after)]; each entry is the position, the element and the dimension
    found there. *)
Definition paired_from (start : Z) (part : SpecPart) (dims : list Z)
    : list (Z * (SpecElem * Z)) :=
  enumerate_from start (zip part dims).

Definition ellipsis_pairing (before after : SpecPart) (actual : list Z)
    : list (Z * (SpecElem * Z)) :=
  paired_from 0 before (take (length before) actual)
    ++ paired_from (len actual - len after) after
         (drop (length actual - length after) actual).

(** Checking the pairs one after the other, left to right. *)
Definition check_pairs (actual : list Z) (spec : ShapeSpec) (source : string)
    (pairs : list (Z * (SpecElem * Z))) : M unit :=
  for_each pairs
    (fun t ctx => _match_dim t.2.2 t.2.1 t.1 actual spec ctx source).

(** The store object a [check_shape] call works on: the one at the address
    passed in, or a fresh empty one at a new address. *)
Definition ctx_object (ctx_arg : option positive)
    (heap : gmap positive UnificationContext) (ctx : positive)
    (store : UnificationContext) : Prop :=
  match ctx_arg with
  | Some given => ctx = given /\ heap !! given = Some store
  | None => ctx = fresh (dom heap) /\ store = []
  end.

(** What a returned check of the dimension [a] against the element [d]
    has established, as seen in the store [ctx]: the integer is [a], or the
    symbolic dimension is bound to [a]; a wildcard asks nothing. *)
Definition elem_holds (ctx : UnificationContext) (a : Z) (d : SpecElem) : Prop :=
  match d with
  | SInt n => a = n
  | SDim dim => exists source, ctx_lookup dim ctx = Some (a, source)
  | SNone => True
  | _ => False
  end.

(** ** _compat.py: the other predicates *)

(** A value as [is_array] and [get_array_backend] look at it: what
    [get_shape] sees of it, [type(x).__module__], and whether it has a
    [dtype] attribute. *)
Record PyObject := mkPyObject {
  py_value : PyValue;
  type_module : string;
  has_dtype : bool
}.

(** [hasattr(x, "shape") and hasattr(x, "dtype")] *)
Definition is_array (x : PyObject) : bool :=
  match shape_attr (py_value x) with
  | Some _ => has_dtype x
  | None => false
  end.

Definition get_array_backend (x : PyObject) : string :=
  let module := type_module x in
  if String.prefix "numpy" module then "numpy"
  else if String.prefix "jax" module then "jax"
  else if String.prefix "torch" module then "torch"
  else "unknown".

(** ** More definitions used to state properties *)

Definition is_symbolic (d : SpecElem) : bool :=
  match d with SDim _ => true | _ => false end.

(** An integer or a wildcard. *)
Definition is_exact (d : SpecElem) : bool :=
  match d with SInt _ | SNone => true | _ => false end.

(** The dimension [a] is what the integer or wildcard [d] asks for. *)
Definition agrees (a : Z) (d : SpecElem) : Prop :=
  match d with
  | SInt n => a = n
  | SNone => True
  | _ => False
  end.

(** Values for the concrete runs. *)
Definition dim_n : Dim := mkDim 1 "n".
Definition py_foo : PyObj := mkPyObj "foo" "'foo'".

(** * Properties *)

(** ** Loops *)

Lemma for_each_app {A} (l1 l2 : list A) (body : A -> M unit) ctx :
  for_each (l1 ++ l2) body ctx = (for_each l1 body ;;; for_each l2 body) ctx.
Proof.
  revert ctx. induction l1 as [|x l1 IH]; intros ctx; simpl.
  - reflexivity.
  - unfold and_then in *. destruct (body x ctx) as [[[]|e] c]; [|reflexivity].
    apply IH.
Qed.

(** A loop that raises stopped at one element: the elements before it all
    returned, and the failing one was run on the store they left. *)
Lemma for_each_Raise {A} (l : list A) (body : A -> M unit) ctx e ctx' :
  for_each l body ctx = (Raise e, ctx') ->
  exists earlier failing rest mid,
    l = earlier ++ failing :: rest /\
    for_each earlier body ctx = (Return tt, mid) /\
    body failing mid = (Raise e, ctx').
Proof.
  revert ctx. induction l as [|x l IH]; intros ctx H; simpl in H.
  - discriminate.
  - unfold and_then in H. destruct (body x ctx) as [[[]|e0] c] eqn:Hx.
    + destruct (IH _ H) as (earlier & failing & rest & mid & -> & Hd & Hf).
      exists (x :: earlier), failing, rest, mid. split; [reflexivity|].
      split; [|exact Hf]. simpl. unfold and_then. rewrite Hx. exact Hd.
    + injection H as <- <-. exists [], x, l, ctx. auto.
Qed.

(** A loop whose body keeps an invariant of the store, and raises only
    exceptions of some kind, does the same as a whole. *)
Lemma for_each_invariant {A} (l : list A) (body : A -> M unit)
    (I : UnificationContext -> Prop) (E : exn -> Prop) ctx :
  (forall x c, x ∈ l -> I c ->
     I (body x c).2 /\ forall e, (body x c).1 = Raise e -> E e) ->
  I ctx ->
  I (for_each l body ctx).2 /\ forall e, (for_each l body ctx).1 = Raise e -> E e.
Proof.
  revert ctx. induction l as [|x l IH]; intros ctx Hb HI; simpl.
  - split; [exact HI|]. intros e He. discriminate.
  - unfold and_then. destruct (Hb x ctx) as [HI' HE]; [by left|exact HI|].
    destruct (body x ctx) as [[[]|e0] c]; simpl in *.
    + apply IH; [|exact HI']. intros y c' Hy. apply Hb. by right.
    + split; [exact HI'|]. intros e [= <-]. by apply HE.
Qed.

(** ** [enumerate] *)

Lemma enumerate_from_app {A} (l1 l2 : list A) start :
  enumerate_from start (l1 ++ l2)
  = enumerate_from start l1 ++ enumerate_from (start + len l1) l2.
Proof.
  revert start. induction l1 as [|x l1 IH]; intros start; simpl.
  - f_equal. unfold len. simpl. lia.
  - f_equal. rewrite IH. f_equal. f_equal. unfold len. simpl length. lia.
Qed.

Lemma enumerate_from_length {A} (l : list A) start :
  length (enumerate_from start l) = length l.
Proof. revert start. induction l; intros; simpl; auto. Qed.

Lemma enumerate_from_lookup {A} (l : list A) start i p :
  enumerate_from start l !! i = Some p ->
  p.1 = start + Z.of_nat i /\ l !! i = Some p.2.
Proof.
  revert start i. induction l as [|x l IH]; intros start i H; [done|].
  destruct i as [|i]; simpl in H.
  - injection H as <-. simpl. split; [lia|done].
  - apply IH in H as [-> H]. split; [lia|done].
Qed.

(** The loop over the trailing part reads [offset + i]: it is the loop from
    [offset] on. *)
Lemma for_each_enumerate_shift {A} (l : list A) (body : Z -> A -> M unit) offset start ctx :
  for_each (enumerate_from start l) (fun p => body (offset + p.1) p.2) ctx
  = for_each (enumerate_from (offset + start) l) (fun p => body p.1 p.2) ctx.
Proof.
  revert start ctx. induction l as [|x l IH]; intros start ctx; simpl; [reflexivity|].
  unfold and_then. destruct (body (offset + start) x ctx) as [[[]|e] c]; [|reflexivity].
  rewrite IH. by replace (offset + (start + 1)) with (offset + start + 1) by lia.
Qed.

(** ** Splitting a specification at its ellipsis *)

Lemma has_ellipsis_app (l1 l2 : ShapeSpec) :
  _has_ellipsis (l1 ++ l2) = _has_ellipsis l1 || _has_ellipsis l2.
Proof. apply existsb_app. Qed.

Lemma filter_ellipsis_id (l : ShapeSpec) :
  _has_ellipsis l = false -> _filter_ellipsis l = l.
Proof.
  induction l as [|s l IH]; simpl; [reflexivity|].
  intros [Hs Hl]%orb_false_iff. rewrite Hs. simpl. f_equal. exact (IH Hl).
Qed.

Lemma ellipsis_indices_from_nil (l : ShapeSpec) start :
  _has_ellipsis l = false -> ellipsis_indices_from start l = [].
Proof.
  revert start. induction l as [|s l IH]; intros start; [reflexivity|].
  unfold ellipsis_indices_from. simpl.
  intros [Hs Hl]%orb_false_iff. rewrite Hs. exact (IH _ Hl).
Qed.

Lemma ellipsis_indices_from_app (l1 l2 : ShapeSpec) start :
  ellipsis_indices_from start (l1 ++ l2)
  = ellipsis_indices_from start l1 ++ ellipsis_indices_from (start + len l1) l2.
Proof.
  unfold ellipsis_indices_from.
  by rewrite enumerate_from_app, List.filter_app, map_app.
Qed.

(** A specification with exactly one ellipsis splits at it. *)
Lemma split_one_ellipsis (before after : SpecPart) (ell : SpecElem) :
  is_ellipsis ell = true ->
  _has_ellipsis before = false ->
  _has_ellipsis after = false ->
  _split_ellipsis_spec (before ++ ell :: after) = inr (before, after).
Proof.
  intros Hell Hb Ha. unfold _split_ellipsis_spec.
  assert (Hidx : ellipsis_indices (before ++ ell :: after) = [len before]).
  { change (ellipsis_indices_from 0 (before ++ ell :: after) = [len before]).
    rewrite ellipsis_indices_from_app, (ellipsis_indices_from_nil before) by done.
    unfold ellipsis_indices_from. simpl. rewrite Hell. simpl.
    f_equal. fold (ellipsis_indices_from (len before + 1) after).
    by apply ellipsis_indices_from_nil. }
  rewrite Hidx. simpl. unfold slice_to, slice_from, len.
  replace (Z.to_nat (Z.of_nat (length before) + 1)) with (S (length before)) by lia.
  rewrite Nat2Z.id, take_app_length.
  replace (drop (S (length before)) (before ++ ell :: after)) with after.
  - by rewrite !filter_ellipsis_id.
  - change (ell :: after) with ([ell] ++ after). rewrite app_assoc.
    rewrite drop_app_length'; [done|]. rewrite length_app. simpl. lia.
Qed.

(** ** One element *)

Lemma tuple_getitem_in_range {A} (t : list A) (i : Z) (a : A) ctx :
  0 <= i -> t !! Z.to_nat i = Some a -> tuple_getitem t i ctx = (Return a, ctx).
Proof.
  intros Hi Ha. unfold tuple_getitem.
  assert (i < len t) by (apply lookup_lt_Some in Ha; unfold len; lia).
  destruct (Z.ltb_spec i 0); [lia|].
  destruct (Z.leb_spec 0 i); [|lia]. destruct (Z.ltb_spec i (len t)); [|lia].
  simpl. by rewrite Ha.
Qed.

Lemma tuple_getitem_store {A} (t : list A) (i : Z) ctx :
  (tuple_getitem t i ctx).2 = ctx.
Proof.
  unfold tuple_getitem.
  destruct (_ && _); [destruct (t !! _)|]; reflexivity.
Qed.

Lemma tuple_getitem_Return {A} (t : list A) (i : Z) (a : A) ctx ctx' :
  tuple_getitem t i ctx = (Return a, ctx') ->
  ctx' = ctx /\ exists j : nat, t !! j = Some a /\
    (i = Z.of_nat j \/ i = Z.of_nat j - len t).
Proof.
  unfold tuple_getitem.
  destruct (_ && _) eqn:Hr; [|discriminate].
  apply andb_true_iff in Hr as [H0%Z.leb_le _].
  destruct (t !! _) as [b|] eqn:Hb; [|discriminate].
  intros [= -> ->]. split; [reflexivity|].
  eexists. split; [exact Hb|]. destruct (Z.ltb_spec i 0); lia.
Qed.

Lemma tuple_getitem_Raise {A} (t : list A) (i : Z) e ctx ctx' :
  tuple_getitem t i ctx = (@Raise A e, ctx') ->
  ctx' = ctx /\ is_IndexError e = true /\ ~ (0 <= i < len t).
Proof.
  unfold tuple_getitem. intros H.
  destruct (Z.ltb_spec i 0).
  - destruct (_ && _); [destruct (t !! _)|]; try discriminate;
      injection H as <- <-; (split; [done|split; [done|lia]]).
  - destruct (Z.leb_spec 0 i); [|lia]. destruct (Z.ltb_spec i (len t)); simpl in H.
    + destruct (t !! Z.to_nat i) eqn:Hl; [discriminate|].
      apply lookup_ge_None in Hl. unfold len in *. lia.
    + injection H as <- <-. split; [done|split; [done|lia]].
Qed.

(** What [bind] does, by cases on the store. *)
Lemma bind_unbound dim value source ctx :
  ctx_lookup dim ctx = None ->
  bind dim value source ctx = (Return tt, ctx ++ [(dim, (value, source))]).
Proof. unfold bind. intros ->. reflexivity. Qed.

Lemma bind_same dim value source bound_source ctx :
  ctx_lookup dim ctx = Some (value, bound_source) ->
  bind dim value source ctx = (Return tt, ctx).
Proof. unfold bind. intros ->. by rewrite bool_decide_true. Qed.

Lemma bind_conflict dim value source bound_value bound_source ctx :
  ctx_lookup dim ctx = Some (bound_value, bound_source) ->
  bound_value <> value ->
  bind dim value source ctx
  = (Raise (ShapeGuardErr (UnificationError dim bound_value bound_source value source)),
     ctx).
Proof. unfold bind. intros -> ?. by rewrite bool_decide_false. Qed.

Lemma bind_Raise dim value source ctx e ctx' :
  bind dim value source ctx = (Raise e, ctx') ->
  ctx' = ctx /\ exists bound_value bound_source,
    ctx_lookup dim ctx = Some (bound_value, bound_source) /\
    bound_value <> value /\
    e = ShapeGuardErr (UnificationError dim bound_value bound_source value source).
Proof.
  unfold bind. destruct (ctx_lookup dim ctx) as [[v s]|]; [|discriminate].
  case_bool_decide; [discriminate|]. intros [= <- <-]. eauto 6.
Qed.

Lemma match_dim_Raise actual_dim spec_dim index actual_shape spec ctx source e ctx' :
  _match_dim actual_dim spec_dim index actual_shape spec ctx source = (Raise e, ctx') ->
  ctx' = ctx /\ dim_failure actual_dim index actual_shape spec ctx source spec_dim e.
Proof.
  destruct spec_dim as [n|d| | |o|o]; simpl.
  - case_bool_decide; [|discriminate]. intros [= <- <-]. split; [done|by constructor].
  - intros (-> & v & s & Hl & Hne & ->)%bind_Raise. split; [done|by econstructor].
  - discriminate.
  - intros [= <- <-]. split; [done|by apply (fail_invalid _ _ _ _ _ _ SEllipsis)].
  - intros [= <- <-]. split; [done|by apply (fail_invalid _ _ _ _ _ _ (SEllipsisType o))].
  - intros [= <- <-]. split; [done|by apply (fail_invalid _ _ _ _ _ _ (SOther o))].
Qed.

(** The store only grows: what was bound stays bound, in place. *)
Lemma match_dim_grows actual_dim spec_dim index actual_shape spec ctx source :
  exists added,
    (_match_dim actual_dim spec_dim index actual_shape spec ctx source).2 = ctx ++ added.
Proof.
  destruct spec_dim as [n|d| | |o|o]; simpl;
    try (exists []; by rewrite app_nil_r).
  - exists []. rewrite app_nil_r. by case_bool_decide.
  - unfold bind. destruct (ctx_lookup d ctx) as [[v s]|].
    + exists []. rewrite app_nil_r. by case_bool_decide.
    + by eexists.
Qed.

Lemma match_at_Raise actual spec source idx spec_dim ctx e ctx' :
  match_at actual spec source idx spec_dim ctx = (Raise e, ctx') ->
  ctx' = ctx /\
  ((is_IndexError e = true /\ ~ (0 <= idx < len actual)) \/
   exists actual_dim, (tuple_getitem actual idx ctx).1 = Return actual_dim /\
     dim_failure actual_dim idx actual spec ctx source spec_dim e).
Proof.
  unfold match_at, and_then.
  destruct (tuple_getitem actual idx ctx) as [[a|e0] c] eqn:Hg.
  - apply tuple_getitem_Return in Hg as [-> _].
    intros [-> Hf]%match_dim_Raise. split; [done|]. right. by exists a.
  - apply tuple_getitem_Raise in Hg as (-> & He & Hr).
    intros [= <- <-]. split; [done|]. by left.
Qed.

Lemma match_at_grows actual spec source idx spec_dim ctx :
  exists added, (match_at actual spec source idx spec_dim ctx).2 = ctx ++ added.
Proof.
  unfold match_at, and_then.
  pose proof (tuple_getitem_store actual idx ctx) as Hs.
  destruct (tuple_getitem actual idx ctx) as [[a|e0] c]; simpl in Hs; subst c.
  - apply match_dim_grows.
  - exists []. by rewrite app_nil_r.
Qed.

(** ** The whole match as one loop *)

Lemma match_shape_runs_elements actual spec ctx source :
  rank_ok actual spec = true ->
  match_shape actual spec ctx source
  = for_each (elements_in_order actual spec)
      (fun p => match_at actual spec source p.1 p.2) ctx.
Proof.
  unfold rank_ok, match_shape, elements_in_order.
  destruct (_has_ellipsis spec).
  - destruct (_split_ellipsis_spec spec) as [e|[before after]]; [discriminate|].
    intros Hr%negb_true_iff. rewrite Hr, for_each_app.
    unfold and_then. destruct (for_each (enumerate before) _ ctx) as [[[]|e] c]; [|done].
    unfold enumerate.
    rewrite (for_each_enumerate_shift after
               (fun i d => match_at actual spec source i d)).
    by rewrite Z.add_0_r.
  - intros Hr%negb_true_iff. by rewrite Hr.
Qed.

Lemma match_shape_rank_not_ok actual spec ctx source :
  rank_ok actual spec = false ->
  (match_shape actual spec ctx source).2 = ctx /\
  exists e, (match_shape actual spec ctx source).1 = Raise e /\
    ((exists expected_rank,
        e = ShapeGuardErr (RankMismatchError expected_rank (len actual) spec actual
                             (Some (format_bindings ctx)))) \/
     (1 < len (ellipsis_indices spec) /\
      e = ValueError "Shape spec cannot contain more than one ellipsis")).
Proof.
  unfold rank_ok, match_shape.
  destruct (_has_ellipsis spec).
  - unfold _split_ellipsis_spec.
    destruct (Z.ltb_spec 1 (len (ellipsis_indices spec))).
    + intros _. split; [done|]. eexists. split; [done|]. by right.
    + destruct (ellipsis_indices spec) as [|idx ?]; simpl;
        intros Hr%negb_false_iff; rewrite Hr; (split; [done|]);
        (eexists; split; [done|]; left; by eexists).
  - intros Hr%negb_false_iff. rewrite Hr. split; [done|].
    eexists. split; [done|]. left. by eexists.
Qed.

Lemma enumerate_from_bounds {A} (l : list A) start p :
  p ∈ enumerate_from start l -> start <= p.1 < start + len l.
Proof.
  intros [i Hi]%list_elem_of_lookup.
  pose proof (lookup_lt_Some _ _ _ Hi) as Hlt. rewrite enumerate_from_length in Hlt.
  apply enumerate_from_lookup in Hi as [-> _]. unfold len. lia.
Qed.

Lemma filter_ellipsis_length (l : ShapeSpec) : len (_filter_ellipsis l) <= len l.
Proof. unfold len, _filter_ellipsis. pose proof (List.filter_length_le (fun s => negb (is_ellipsis s)) l). lia. Qed.

(** Every index of the loops lies inside the shape once the rank check
    has passed. *)
Lemma elements_in_bounds actual spec p :
  rank_ok actual spec = true ->
  p ∈ elements_in_order actual spec -> 0 <= p.1 < len actual.
Proof.
  unfold rank_ok, elements_in_order.
  destruct (_has_ellipsis spec).
  - destruct (_split_ellipsis_spec spec) as [e|[before after]]; [discriminate|].
    intros Hr%negb_true_iff%Z.ltb_ge.
    assert (0 <= len before /\ 0 <= len after) as [? ?] by (unfold len; lia).
    intros [Hp%enumerate_from_bounds|Hp%enumerate_from_bounds]%elem_of_app; lia.
  - intros Hr%negb_true_iff%bool_decide_eq_false Hp%enumerate_from_bounds.
    pose proof (filter_ellipsis_length spec). lia.
Qed.

Lemma match_at_in_bounds_no_IndexError actual spec source idx spec_dim ctx :
  0 <= idx < len actual ->
  raises is_IndexError (match_at actual spec source idx spec_dim ctx).1 = false.
Proof.
  intros Hb. destruct (match_at actual spec source idx spec_dim ctx) as [[[]|e] c] eqn:Hm;
    [done|]. simpl.
  apply match_at_Raise in Hm as [_ [[_ Hn]|(a & _ & Hf)]]; [done|].
  by destruct Hf.
Qed.

Lemma dim_failure_not_rank actual_dim index actual_shape spec ctx source d e :
  dim_failure actual_dim index actual_shape spec ctx source d e ->
  is_rank_mismatch e = false.
Proof. by destruct 1. Qed.

Lemma match_shape_passed_not_rank actual spec ctx source :
  rank_ok actual spec = true ->
  raises is_rank_mismatch (match_shape actual spec ctx source).1 = false.
Proof.
  intros Hr. rewrite match_shape_runs_elements by done.
  destruct (for_each _ _ ctx) as [[[]|e] c] eqn:Hloop; [done|]. simpl.
  apply for_each_Raise in Hloop as (earlier & failing & rest & mid & _ & _ & Hf).
  apply match_at_Raise in Hf as [_ [[He _]|(a & _ & Hf)]].
  - by destruct e.
  - by eapply dim_failure_not_rank.
Qed.

(** Every way [match_shape] raises: before any element (the rank check or
    the split at the ellipsis), with the store untouched; or at one element
    of the loops, after the elements before it returned. *)
Lemma match_shape_Raise actual spec ctx source e ctx' :
  match_shape actual spec ctx source = (Raise e, ctx') ->
  (rank_ok actual spec = false /\ ctx' = ctx /\
     ((exists expected_rank,
         e = ShapeGuardErr (RankMismatchError expected_rank (len actual) spec actual
                              (Some (format_bindings ctx)))) \/
      (1 < len (ellipsis_indices spec) /\
       e = ValueError "Shape spec cannot contain more than one ellipsis"))) \/
  (rank_ok actual spec = true /\
     exists earlier failing rest,
       elements_in_order actual spec = earlier ++ failing :: rest /\
       for_each earlier (fun p => match_at actual spec source p.1 p.2) ctx
       = (Return tt, ctx') /\
       match_at actual spec source failing.1 failing.2 ctx' = (Raise e, ctx')).
Proof.
  intros H. destruct (rank_ok actual spec) eqn:Hr.
  - right. split; [done|]. rewrite match_shape_runs_elements in H by done.
    apply for_each_Raise in H as (earlier & failing & rest & mid & Hsplit & He & Hf).
    pose proof (match_at_Raise _ _ _ _ _ _ _ _ Hf) as [-> _].
    by exists earlier, failing, rest.
  - left. split; [done|].
    destruct (match_shape_rank_not_ok actual spec ctx source Hr) as (Hs & e0 & He & Hk).
    rewrite H in Hs, He. simpl in *. injection He as ->. by split.
Qed.

Lemma for_each_match_at_grows actual spec source (items : list (Z * SpecElem)) ctx :
  exists added,
    (for_each items (fun p => match_at actual spec source p.1 p.2) ctx).2 = ctx ++ added.
Proof.
  apply (for_each_invariant items _ (fun c => exists added, c = ctx ++ added)
           (fun _ => True)).
  - intros p c _ [added ->]. split; [|done].
    destruct (match_at_grows actual spec source p.1 p.2 (ctx ++ added)) as [more ->].
    exists (added ++ more). by rewrite app_assoc.
  - exists []. by rewrite app_nil_r.
Qed.

(** ** Where the elements of the loops come from *)

Lemma filter_ellipsis_elem (l : ShapeSpec) (d : SpecElem) :
  d ∈ _filter_ellipsis l -> d ∈ l /\ is_ellipsis d = false.
Proof.
  unfold _filter_ellipsis. rewrite !list_elem_of_In, List.filter_In.
  intros [? ?%negb_true_iff]. done.
Qed.

Lemma enumerate_from_elem {A} (l : list A) start p :
  p ∈ enumerate_from start l -> p.2 ∈ l.
Proof.
  intros [i Hi]%list_elem_of_lookup.
  apply enumerate_from_lookup in Hi as [_ Hi]. by eapply list_elem_of_lookup_2.
Qed.

Lemma split_parts_from_spec (spec : ShapeSpec) (before after : SpecPart) (d : SpecElem) :
  _split_ellipsis_spec spec = inr (before, after) ->
  d ∈ before ++ after -> d ∈ spec /\ is_ellipsis d = false.
Proof.
  unfold _split_ellipsis_spec. destruct (1 <? _); [discriminate|].
  destruct (ellipsis_indices spec) as [|idx ?]; intros [= <- <-].
  - rewrite app_nil_r. apply filter_ellipsis_elem.
  - intros [[H ?]%filter_ellipsis_elem|[H ?]%filter_ellipsis_elem]%elem_of_app;
      (split; [|done]).
    + by apply (subseteq_take (Z.to_nat idx)).
    + by apply (subseteq_drop (Z.to_nat (idx + 1))).
Qed.

Lemma elements_from_spec actual spec p :
  p ∈ elements_in_order actual spec -> p.2 ∈ spec /\ is_ellipsis p.2 = false.
Proof.
  unfold elements_in_order. destruct (_has_ellipsis spec).
  - destruct (_split_ellipsis_spec spec) as [e|[before after]] eqn:Hs.
    + by intros ?%elem_of_nil.
    + intros Hp. apply (split_parts_from_spec spec before after); [done|].
      apply elem_of_app in Hp as [Hp|Hp]; apply enumerate_from_elem in Hp;
        apply elem_of_app; auto.
  - intros Hp%enumerate_from_elem. by apply filter_ellipsis_elem.
Qed.

(** ** Matching around an ellipsis *)

Lemma match_at_in_range actual spec source idx spec_dim actual_dim ctx :
  0 <= idx -> actual !! Z.to_nat idx = Some actual_dim ->
  match_at actual spec source idx spec_dim ctx
  = _match_dim actual_dim spec_dim idx actual spec ctx source.
Proof.
  intros Hidx Ha. unfold match_at, and_then.
  by rewrite (tuple_getitem_in_range actual idx actual_dim).
Qed.

Lemma for_each_match_at_paired actual spec source (part : SpecPart) :
  forall (start : Z) (dims : list Z) ctx,
    0 <= start ->
    (forall i : nat, (i < length part)%nat ->
       is_Some (dims !! i) /\ actual !! (Z.to_nat start + i)%nat = dims !! i) ->
    for_each (enumerate_from start part)
      (fun p => match_at actual spec source p.1 p.2) ctx
    = check_pairs actual spec source (paired_from start part dims) ctx.
Proof.
  unfold check_pairs, paired_from.
  induction part as [|d part IH]; intros start dims ctx Hstart Hdims; [reflexivity|].
  destruct (Hdims 0%nat) as [[a Ha] Hact]; [simpl; lia|].
  destruct dims as [|a' dims]; [done|]. injection Ha as ->.
  rewrite Nat.add_0_r in Hact. simpl in Hact.
  cbn [zip_with enumerate_from for_each fst snd]. unfold and_then.
  rewrite (match_at_in_range actual spec source start d a) by done.
  destruct (_match_dim a d start actual spec ctx source) as [[[]|e] c]; [|reflexivity].
  apply IH; [lia|]. intros i Hi.
  destruct (Hdims (S i)) as [Hs Hl]; [simpl; lia|]. simpl in Hs, Hl.
  split; [done|]. rewrite <- Hl. f_equal. lia.
Qed.

Lemma rank_ok_one_ellipsis (before after : SpecPart) (ell : SpecElem) (actual : list Z) :
  is_ellipsis ell = true ->
  _has_ellipsis before = false ->
  _has_ellipsis after = false ->
  len before + len after <= len actual ->
  _has_ellipsis (before ++ ell :: after) = true /\
  rank_ok actual (before ++ ell :: after) = true /\
  elements_in_order actual (before ++ ell :: after)
  = enumerate before ++ enumerate_from (len actual - len after) after.
Proof.
  intros Hell Hb Ha Hlen.
  assert (Hhas : _has_ellipsis (before ++ ell :: after) = true).
  { rewrite has_ellipsis_app. simpl. rewrite Hell. by rewrite orb_true_r. }
  unfold rank_ok, elements_in_order.
  rewrite Hhas, split_one_ellipsis by done.
  split; [done|]. split; [|done]. apply negb_true_iff. by apply Z.ltb_ge.
Qed.

Lemma ellipsis_match_is_pairing (before after : SpecPart) (ell : SpecElem)
    (actual : list Z) ctx source :
  is_ellipsis ell = true ->
  _has_ellipsis before = false ->
  _has_ellipsis after = false ->
  len before + len after <= len actual ->
  match_shape actual (before ++ ell :: after) ctx source
  = check_pairs actual (before ++ ell :: after) source
      (ellipsis_pairing before after actual) ctx.
Proof.
  intros Hell Hb Ha Hlen.
  destruct (rank_ok_one_ellipsis before after ell actual) as (_ & Hr & Hel); try done.
  rewrite match_shape_runs_elements, Hel by done.
  unfold check_pairs, ellipsis_pairing. rewrite !for_each_app. unfold and_then.
  assert (0 <= len before /\ 0 <= len after) as [? ?] by (unfold len; lia).
  unfold enumerate.
  rewrite (for_each_match_at_paired _ _ _ before 0 (take (length before) actual)).
  - unfold check_pairs.
    destruct (for_each (paired_from 0 before _) _ ctx) as [[[]|e] c]; [|reflexivity].
    apply for_each_match_at_paired; [lia|].
    intros i Hi. rewrite lookup_drop.
    replace (Z.to_nat (len actual - len after)) with (length actual - length after)%nat
      by (unfold len in *; lia).
    split; [|done]. apply lookup_lt_is_Some. unfold len in *. lia.
  - done.
  - intros i Hi. rewrite lookup_take_lt by done. split; [|done].
    apply lookup_lt_is_Some. unfold len in *. lia.
Qed.

(** With no position to absorb, the pairing covers the whole shape. *)
Lemma ellipsis_pairing_zero_width (before after : SpecPart) (actual : list Z) :
  len actual = len before + len after ->
  ellipsis_pairing before after actual = paired_from 0 (before ++ after) actual.
Proof.
  intros Hlen. unfold ellipsis_pairing, paired_from.
  assert (Hb : length before = length (take (length before) actual)).
  { rewrite length_take. unfold len in *. lia. }
  assert (Hz : zip (before ++ after) actual
               = zip before (take (length before) actual)
                   ++ zip after (drop (length before) actual)).
  { rewrite <- zip_with_app by done. by rewrite take_drop. }
  rewrite Hz, enumerate_from_app.
  replace (length actual - length after)%nat with (length before)
    by (unfold len in *; lia).
  f_equal. f_equal. unfold len in *. rewrite length_zip_with, <- Hb. lia.
Qed.

(** ** The values bound do not depend on labels or positions *)

Lemma ctx_lookup_values (dim : Dim) (c1 c2 : UnificationContext) :
  ctx_values c1 = ctx_values c2 ->
  fst <$> ctx_lookup dim c1 = fst <$> ctx_lookup dim c2.
Proof.
  revert c2. induction c1 as [|[d1 [v1 s1]] c1 IH]; intros [|[d2 [v2 s2]] c2] H;
    try done.
  injection H as -> -> H. simpl. destruct (Dim_is d2 dim); [done|]. by apply IH.
Qed.

Lemma match_dim_values actual_dim spec_dim i1 i2 (act1 act2 : list Z) spec c1 c2 source :
  ctx_values c1 = ctx_values c2 ->
  raised (_match_dim actual_dim spec_dim i1 act1 spec c1 source).1
  = raised (_match_dim actual_dim spec_dim i2 act2 spec c2 source).1 /\
  ctx_values (_match_dim actual_dim spec_dim i1 act1 spec c1 source).2
  = ctx_values (_match_dim actual_dim spec_dim i2 act2 spec c2 source).2.
Proof.
  intros Hv. destruct spec_dim as [n|d| | |o|o]; simpl; try done.
  - by case_bool_decide.
  - unfold bind. pose proof (ctx_lookup_values d c1 c2 Hv) as Hl.
    destruct (ctx_lookup d c1) as [[v1 s1]|], (ctx_lookup d c2) as [[v2 s2]|];
      try done; simpl in Hl.
    + injection Hl as ->. by case_bool_decide.
    + split; [done|]. cbn [fst snd]. unfold ctx_values in *. rewrite !List.map_app. by rewrite Hv.
Qed.

Lemma check_pairs_values spec source (act1 act2 : list Z)
    (pairs1 : list (Z * (SpecElem * Z))) :
  forall (pairs2 : list (Z * (SpecElem * Z))) c1 c2,
    pairs1.*2 = pairs2.*2 ->
    ctx_values c1 = ctx_values c2 ->
    raised (check_pairs act1 spec source pairs1 c1).1
    = raised (check_pairs act2 spec source pairs2 c2).1 /\
    ctx_values (check_pairs act1 spec source pairs1 c1).2
    = ctx_values (check_pairs act2 spec source pairs2 c2).2.
Proof.
  unfold check_pairs.
  induction pairs1 as [|[i1 [d a]] pairs1 IH]; intros [|[i2 [d' a']] pairs2] c1 c2 Hp Hv;
    try done.
  injection Hp as -> -> Hp. cbn [for_each]. unfold and_then. cbn [fst snd].
  destruct (match_dim_values a' d' i1 i2 act1 act2 spec c1 c2 source Hv) as [Hr Hs].
  destruct (_match_dim a' d' i1 act1 spec c1 source) as [[[]|e1] c1'],
           (_match_dim a' d' i2 act2 spec c2 source) as [[[]|e2] c2']; try done.
  by apply IH.
Qed.

Lemma enumerate_from_snd {A} (l : list A) start : (enumerate_from start l).*2 = l.
Proof. revert start. induction l as [|x l IH]; intros start; simpl; [done|]. by rewrite IH. Qed.

Lemma ellipsis_pairing_snd (before after : SpecPart) (leading middle trailing : list Z) :
  length leading = length before ->
  length trailing = length after ->
  (ellipsis_pairing before after (leading ++ middle ++ trailing)).*2
  = zip before leading ++ zip after trailing.
Proof.
  intros Hl Ht. unfold ellipsis_pairing, paired_from.
  rewrite fmap_app, !enumerate_from_snd.
  rewrite take_app_length' by done.
  rewrite (app_assoc leading middle trailing).
  rewrite drop_app_length'; [done|]. rewrite !length_app. lia.
Qed.

(** ** What the check of a pair establishes *)

Lemma ctx_lookup_app (dim : Dim) (ctx added : UnificationContext) b :
  ctx_lookup dim ctx = Some b -> ctx_lookup dim (ctx ++ added) = Some b.
Proof.
  induction ctx as [|[d b'] ctx IH]; simpl; [done|].
  destruct (Dim_is d dim); [done|exact IH].
Qed.

Lemma ctx_lookup_snoc (dim : Dim) (ctx : UnificationContext) b :
  ctx_lookup dim ctx = None -> ctx_lookup dim (ctx ++ [(dim, b)]) = Some b.
Proof.
  induction ctx as [|[d b'] ctx IH]; simpl.
  - intros _. unfold Dim_is. by rewrite bool_decide_true.
  - destruct (Dim_is d dim); [done|exact IH].
Qed.

Lemma elem_holds_app (ctx added : UnificationContext) (a : Z) (d : SpecElem) :
  elem_holds ctx a d -> elem_holds (ctx ++ added) a d.
Proof.
  destruct d; simpl; try done. intros [src Hl]. exists src. by apply ctx_lookup_app.
Qed.

Lemma match_dim_Return_holds actual_dim spec_dim index actual_shape spec ctx source ctx' :
  _match_dim actual_dim spec_dim index actual_shape spec ctx source = (Return tt, ctx') ->
  elem_holds ctx' actual_dim spec_dim.
Proof.
  destruct spec_dim as [n|d| | |o|o]; simpl; try done.
  - case_bool_decide as Hn; [done|]. intros _. lia.
  - unfold bind. destruct (ctx_lookup d ctx) as [[v s]|] eqn:Hl.
    + case_bool_decide as Hv; [|done]. intros [= <-]. subst v. by exists s.
    + intros [= <-]. eexists. by apply ctx_lookup_snoc.
Qed.

(** What [_match_dim] writes: nothing, or, for a [Dim], the one binding of
    it to the dimension it was given, labelled [source[index]]. *)
Lemma match_dim_added actual_dim spec_dim index actual_shape spec ctx source :
  (_match_dim actual_dim spec_dim index actual_shape spec ctx source).2 = ctx \/
  exists dim,
    spec_dim = SDim dim /\
    (_match_dim actual_dim spec_dim index actual_shape spec ctx source).2
    = ctx ++ [(dim, (actual_dim, source +:+ "[" +:+ pretty index +:+ "]"))].
Proof.
  destruct spec_dim as [n|d| | |o|o]; simpl; try by left.
  - left. by case_bool_decide.
  - unfold bind. destruct (ctx_lookup d ctx) as [[v s]|].
    + left. by case_bool_decide.
    + right. by exists d.
Qed.

(** Every binding a run of [check_pairs] adds is the binding of the [Dim]
    of one of the pairs to the dimension of that pair, labelled with its
    position. *)
Lemma check_pairs_added actual spec source (pairs : list (Z * (SpecElem * Z))) :
  forall ctx, exists added,
    (check_pairs actual spec source pairs ctx).2 = ctx ++ added /\
    Forall (fun b => exists idx, (idx, (SDim b.1, b.2.1)) ∈ pairs /\
                       b.2.2 = source +:+ "[" +:+ pretty idx +:+ "]") added.
Proof.
  unfold check_pairs. induction pairs as [|[idx [d a]] pairs IH]; intros ctx.
  - exists []. by rewrite app_nil_r.
  - cbn [for_each fst snd]. unfold and_then.
    assert (exists first,
              (_match_dim a d idx actual spec ctx source).2 = ctx ++ first /\
              Forall (fun b => exists i, (i, (SDim b.1, b.2.1)) ∈ (idx, (d, a)) :: pairs /\
                                 b.2.2 = source +:+ "[" +:+ pretty i +:+ "]") first)
      as (first & Hfirst & Hfrom).
    { destruct (match_dim_added a d idx actual spec ctx source) as [->|(dim & -> & ->)].
      - exists []. by rewrite app_nil_r.
      - eexists. split; [done|]. constructor; [|done]. exists idx. split; [by left|done]. }
    destruct (_match_dim a d idx actual spec ctx source) as [[[]|e] mid];
      simpl in Hfirst; subst mid.
    + destruct (IH (ctx ++ first)) as (more & -> & Hmore).
      exists (first ++ more). split; [by rewrite app_assoc|].
      apply Forall_app. split; [done|].
      eapply Forall_impl; [exact Hmore|]. intros b (i & Hi & Hl).
      exists i. split; [by right|done].
    + by exists first.
Qed.

(** A run of [check_pairs] that returns leaves a store in which every pair
    holds: the integer is the dimension, the [Dim] is bound to it. *)
Lemma check_pairs_Return_holds actual spec source (pairs : list (Z * (SpecElem * Z))) :
  forall ctx ctx',
    check_pairs actual spec source pairs ctx = (Return tt, ctx') ->
    Forall (fun t => elem_holds ctx' t.2.2 t.2.1) pairs.
Proof.
  induction pairs as [|[idx [d a]] pairs IH]; intros ctx ctx' Hm; [constructor|].
  unfold check_pairs in Hm. cbn [for_each fst snd] in Hm. unfold and_then in Hm.
  destruct (_match_dim a d idx actual spec ctx source) as [[[]|e] mid] eqn:Hd; [|done].
  fold (check_pairs actual spec source pairs mid) in Hm.
  constructor; [|by apply (IH mid)]. simpl.
  apply match_dim_Return_holds in Hd.
  destruct (check_pairs_added actual spec source pairs mid) as (added & Hadd & _).
  rewrite Hm in Hadd. simpl in Hadd. subst ctx'. by apply elem_holds_app.
Qed.

(** A run of [check_pairs] that raises stopped at one pair, whose element
    fails against its dimension in the store left; the pairs before it hold
    in that store. *)
Lemma check_pairs_Raise actual spec source (pairs : list (Z * (SpecElem * Z))) ctx e ctx' :
  check_pairs actual spec source pairs ctx = (Raise e, ctx') ->
  exists earlier failing rest,
    pairs = earlier ++ failing :: rest /\
    Forall (fun t => elem_holds ctx' t.2.2 t.2.1) earlier /\
    dim_failure failing.2.2 failing.1 actual spec ctx' source failing.2.1 e.
Proof.
  intros (earlier & failing & rest & mid & -> & Hearlier & Hf)%for_each_Raise.
  apply match_dim_Raise in Hf as [-> Hf].
  exists earlier, failing, rest. split; [done|]. split; [|done].
  exact (check_pairs_Return_holds actual spec source earlier ctx mid Hearlier).
Qed.

(** * The claims *)

(** C1.  For a specification with exactly one ellipsis and a shape of at
    least [len(before) + len(after)] dimensions, [match_shape] is the check,
    left to right, of the [before] elements against the leading positions by
    index and then of the [after] elements against the trailing positions,
    element [i] against [actual[len(actual) - len(after) + i]]
    ([ellipsis_pairing]).  These pairs are checked and bound: when the match
    returns, every paired integer equals the dimension at its position and
    every paired [Dim] is bound to the dimension at its position in the
    store left; when it raises, the exception is the failure of one paired
    element against its dimension -- a different integer, a [Dim] bound to
    another value, an element of no valid type -- and the pairs before it
    hold in the store left.  The positions in between are neither checked
    nor bound: every binding the call adds binds the [Dim] of a pair to the
    dimension of that pair, and with the same leading and trailing
    dimensions any two middles, of any lengths, give the same success or
    failure and the same bound values.  When
    [len(actual) = len(before) + len(after)] the ellipsis takes no position:
    the match is the element-by-element check of [before ++ after] against
    the whole shape. *)
Theorem ellipsis_matches_leading_and_trailing (before after : SpecPart) (ell : SpecElem)
    (actual : list Z) (ctx : UnificationContext) (source : string) :
  is_ellipsis ell = true ->
  _has_ellipsis before = false ->
  _has_ellipsis after = false ->
  len before + len after <= len actual ->
  match_shape actual (before ++ ell :: after) ctx source
  = check_pairs actual (before ++ ell :: after) source
      (ellipsis_pairing before after actual) ctx /\
  (forall leading middle middle' trailing : list Z,
     length leading = length before ->
     length trailing = length after ->
     raised (match_shape (leading ++ middle ++ trailing)
               (before ++ ell :: after) ctx source).1
     = raised (match_shape (leading ++ middle' ++ trailing)
                 (before ++ ell :: after) ctx source).1 /\
     ctx_values (match_shape (leading ++ middle ++ trailing)
                   (before ++ ell :: after) ctx source).2
     = ctx_values (match_shape (leading ++ middle' ++ trailing)
                     (before ++ ell :: after) ctx source).2) /\
  (len actual = len before + len after ->
     match_shape actual (before ++ ell :: after) ctx source
     = check_pairs actual (before ++ ell :: after) source
         (paired_from 0 (before ++ after) actual) ctx) /\
  (forall ctx',
     match_shape actual (before ++ ell :: after) ctx source = (Return tt, ctx') ->
     Forall (fun t => elem_holds ctx' t.2.2 t.2.1)
       (ellipsis_pairing before after actual)) /\
  (forall e ctx',
     match_shape actual (before ++ ell :: after) ctx source = (Raise e, ctx') ->
     exists earlier failing rest,
       ellipsis_pairing before after actual = earlier ++ failing :: rest /\
       Forall (fun t => elem_holds ctx' t.2.2 t.2.1) earlier /\
       dim_failure failing.2.2 failing.1 actual (before ++ ell :: after) ctx' source
         failing.2.1 e) /\
  (exists added,
     (match_shape actual (before ++ ell :: after) ctx source).2 = ctx ++ added /\
     Forall (fun b => exists idx,
                        (idx, (SDim b.1, b.2.1)) ∈ ellipsis_pairing before after actual /\
                        b.2.2 = source +:+ "[" +:+ pretty idx +:+ "]") added).
Proof.
  intros Hell Hb Ha Hlen.
  pose proof (ellipsis_match_is_pairing before after ell actual ctx source
                Hell Hb Ha Hlen) as Hpair.
  split; [exact Hpair|]. split; [|split; [|split; [|split]]].
  - intros leading middle middle' trailing Hl Ht.
    rewrite !ellipsis_match_is_pairing; try done.
    + apply check_pairs_values; [|done]. by rewrite !ellipsis_pairing_snd.
    + unfold len. rewrite !length_app. lia.
    + unfold len. rewrite !length_app. lia.
  - intros Hzero. rewrite <- ellipsis_pairing_zero_width by done. exact Hpair.
  - intros ctx' Hm. rewrite Hpair in Hm.
    exact (check_pairs_Return_holds _ _ _ _ _ _ Hm).
  - intros e ctx' Hm. rewrite Hpair in Hm. exact (check_pairs_Raise _ _ _ _ _ _ _ Hm).
  - rewrite Hpair. apply check_pairs_added.
Qed.

(** C2 (as amended).  A [RankMismatchError] or [DimensionMismatchError]
    raised by [match_shape] has its expected shape (the specification), its
    actual shape, a reason and the formatted bindings of the store at the
    time of the failure.  A conflict on a symbolic dimension comes out of
    [bind] as the [UnificationError] for the dimension, the value and source
    it was bound to and the value and source just seen; it has a reason, and
    its expected shape, actual shape and bindings are left unset. *)
Theorem diagnostic_fields_by_class (shape : list Z) (spec : ShapeSpec)
    (ctx : UnificationContext) (source : string) (d : ShapeGuardError)
    (ctx' : UnificationContext) :
  match_shape shape spec ctx source = (Raise (ShapeGuardErr d), ctx') ->
  reason d = Some (message d) /\
  match err_class d with
  | UnificationErrorCls dim bound_value bound_source value value_source =>
      d = UnificationError dim bound_value bound_source value value_source /\
      ctx_lookup dim ctx' = Some (bound_value, bound_source) /\
      bound_value <> value /\
      expected d = None /\ actual d = None /\ bindings d = None
  | RankMismatchErrorCls | DimensionMismatchErrorCls =>
      expected d = Some spec /\ actual d = Some shape /\
      bindings d = Some (format_bindings ctx')
  end.
Proof.
  intros [(_ & -> & [[r [= ->]]|[_ [=]]])
         |(_ & earlier & failing & rest & _ & _ & Hf)]%match_shape_Raise.
  - done.
  - apply match_at_Raise in Hf as [_ [[He _]|(a & _ & Hf)]]; [done|].
    inversion Hf; subst; done.
Qed.

(** C3.  For a specification with at most one ellipsis (it splits into
    [before] and [after]): without an ellipsis, [match_shape] raises a
    [RankMismatchError] exactly when [len(actual) != len(spec)], and the error
    reports the exact expected rank [len(spec)]; with an ellipsis, exactly
    when [len(actual) < len(before) + len(after)], and the error reports the
    minimum followed by [+].  In both cases the rank error is built from the
    store as given and the store is left untouched: the rank is checked
    before any dimension is looked at, whatever the dimensions are. *)
Theorem rank_mismatch_exactly_when_rank_wrong (actual : list Z) (spec : ShapeSpec)
    (ctx : UnificationContext) (source : string) (before after : SpecPart) :
  _split_ellipsis_spec spec = inr (before, after) ->
  (_has_ellipsis spec = false ->
     (raises is_rank_mismatch (match_shape actual spec ctx source).1 = true
        <-> len actual <> len spec) /\
     (len actual <> len spec ->
        match_shape actual spec ctx source
        = (Raise (ShapeGuardErr
             (RankMismatchError (inl (len spec)) (len actual) spec actual
                (Some (format_bindings ctx)))), ctx) /\
        reason (RankMismatchError (inl (len spec)) (len actual) spec actual
                  (Some (format_bindings ctx)))
        = Some ("expected rank " +:+ pretty (len spec)
                  +:+ ", got rank " +:+ pretty (len actual)))) /\
  (_has_ellipsis spec = true ->
     (raises is_rank_mismatch (match_shape actual spec ctx source).1 = true
        <-> len actual < len before + len after) /\
     (len actual < len before + len after ->
        match_shape actual spec ctx source
        = (Raise (ShapeGuardErr
             (RankMismatchError (inr (pretty (len before + len after) +:+ "+"))
                (len actual) spec actual (Some (format_bindings ctx)))), ctx) /\
        reason (RankMismatchError (inr (pretty (len before + len after) +:+ "+"))
                  (len actual) spec actual (Some (format_bindings ctx)))
        = Some ("expected rank " +:+ (pretty (len before + len after) +:+ "+")
                  +:+ ", got rank " +:+ pretty (len actual)))).
Proof.
  intros Hsplit. split; intros Hell.
  - assert (Hwrong : len actual <> len spec ->
              match_shape actual spec ctx source
              = (Raise (ShapeGuardErr
                   (RankMismatchError (inl (len spec)) (len actual) spec actual
                      (Some (format_bindings ctx)))), ctx)).
    { intros Hne. unfold match_shape. rewrite Hell. by rewrite bool_decide_true. }
    split; [|intros Hne; split; [by apply Hwrong|reflexivity]].
    split.
    + intros Hraise Heq.
      assert (Hok : rank_ok actual spec = true).
      { unfold rank_ok. rewrite Hell. by rewrite bool_decide_false by (by intros ?). }
      pose proof (match_shape_passed_not_rank actual spec ctx source Hok). congruence.
    + intros Hne. by rewrite Hwrong.
  - assert (Hwrong : len actual < len before + len after ->
              match_shape actual spec ctx source
              = (Raise (ShapeGuardErr
                   (RankMismatchError (inr (pretty (len before + len after) +:+ "+"))
                      (len actual) spec actual (Some (format_bindings ctx)))), ctx)).
    { intros Hlt%Z.ltb_lt. unfold match_shape. by rewrite Hell, Hsplit, Hlt. }
    split; [|intros Hlt; split; [by apply Hwrong|reflexivity]].
    split.
    + intros Hraise. destruct (Z.ltb_spec (len actual) (len before + len after)) as [|Hge];
        [done|].
      assert (Hok : rank_ok actual spec = true).
      { unfold rank_ok. rewrite Hell, Hsplit. apply negb_true_iff. by apply Z.ltb_ge. }
      pose proof (match_shape_passed_not_rank actual spec ctx source Hok). congruence.
    + intros Hlt. by rewrite Hwrong.
Qed.

(** C4 (as amended).  A specification with two or more ellipsis elements
    is rejected at the entry of [match_shape] by a [ValueError], with the
    store untouched.  An element that is none of [int], [Dim], [None] or an
    ellipsis is rejected by [_match_dim] with a [TypeError] that leaves the
    store as [_match_dim] found it; [match_shape] raises it only when its
    loop reaches that element: after the rank check has passed and after the
    elements before it have been matched, whose bindings are then in the
    store.  [match_shape] raises no other exception outside the
    [ShapeGuardError] classes. *)
Theorem construction_errors_where_raised :
  (forall (actual : list Z) (spec : ShapeSpec) (ctx : UnificationContext) (source : string),
     1 < len (ellipsis_indices spec) ->
     match_shape actual spec ctx source
     = (Raise (ValueError "Shape spec cannot contain more than one ellipsis"), ctx)) /\
  (forall (actual_dim index : Z) (actual_shape : list Z) (spec : ShapeSpec)
          (ctx : UnificationContext) (source : string) (o : PyObj),
     _match_dim actual_dim (SOther o) index actual_shape spec ctx source
     = (Raise (invalid_element index (py_repr o)), ctx)) /\
  (forall (actual : list Z) (spec : ShapeSpec) (ctx : UnificationContext) (source : string)
          (e : exn) (ctx' : UnificationContext),
     match_shape actual spec ctx source = (Raise e, ctx') ->
     is_diagnostic e = false ->
     (e = ValueError "Shape spec cannot contain more than one ellipsis" /\
      1 < len (ellipsis_indices spec) /\ ctx' = ctx) \/
     (rank_ok actual spec = true /\
      exists earlier index o rest,
        elements_in_order actual spec = earlier ++ (index, SOther o) :: rest /\
        SOther o ∈ spec /\
        e = invalid_element index (py_repr o) /\
        for_each earlier (fun p => match_at actual spec source p.1 p.2) ctx
        = (Return tt, ctx'))).
Proof.
  split; [|split].
  - intros actual spec ctx source Hmany. unfold match_shape.
    destruct (_has_ellipsis spec) eqn:Hell.
    + unfold _split_ellipsis_spec. by destruct (Z.ltb_spec 1 (len (ellipsis_indices spec))); [|lia].
    + pose proof (ellipsis_indices_from_nil spec 0 Hell) as Hnil.
      change (ellipsis_indices spec = []) in Hnil. rewrite Hnil in Hmany. done.
  - reflexivity.
  - intros actual spec ctx source e ctx'
      [(_ & -> & [[r ->]|[Hmany ->]])
      |(Hr & earlier & [index d] & rest & Hsplit & Hearlier & Hf)]%match_shape_Raise Hnd.
    + done.
    + by left.
    + right. split; [done|]. simpl in Hf.
      assert (Hin : (index, d) ∈ elements_in_order actual spec).
      { rewrite Hsplit. apply elem_of_app. right. by left. }
      pose proof (elements_in_bounds _ _ _ Hr Hin) as Hb.
      apply elements_from_spec in Hin as [Hspec Hne]. simpl in *.
      apply match_at_Raise in Hf as [_ [[_ Hout]|(a & Ha & Hf)]]; [done|].
      destruct Hf as [n ?|dim v s ? ?|d Hd]; [done|done|].
      destruct d as [n|dim| | |o|o]; try done.
      by exists earlier, index, o, rest.
Qed.

(** C5.  When a [match_shape] call raises, the store it leaves is the
    store as it was just before the failing element was processed: either
    nothing was processed yet (rank check or ellipsis split) and the store is
    the one given, or the elements before the failing one all returned and
    left exactly this store -- their bindings are in it, on top of the ones
    given -- and the failing element added nothing to it. *)
Theorem failure_keeps_store_before_failing_element (actual : list Z) (spec : ShapeSpec)
    (ctx : UnificationContext) (source : string) (e : exn) (ctx' : UnificationContext) :
  match_shape actual spec ctx source = (Raise e, ctx') ->
  (ctx' = ctx /\ rank_ok actual spec = false) \/
  (exists earlier failing rest,
     elements_in_order actual spec = earlier ++ failing :: rest /\
     for_each earlier (fun p => match_at actual spec source p.1 p.2) ctx
     = (Return tt, ctx') /\
     match_at actual spec source failing.1 failing.2 ctx' = (Raise e, ctx') /\
     exists added, ctx' = ctx ++ added).
Proof.
  intros [(Hr & -> & _)|(_ & earlier & failing & rest & Hsplit & He & Hf)]%match_shape_Raise.
  - by left.
  - right. exists earlier, failing, rest. repeat split; try done.
    destruct (for_each_match_at_grows actual spec source earlier ctx) as [added Ha].
    rewrite He in Ha. by exists added.
Qed.

(** C6.  The diagnostic raised for the shape [(7, 8)] checked against
    [(None, 9)] carries the specification tuple as it is, and its rendering
    goes through [_format_shape]: the wildcard comes out as [None] and an
    ellipsis as [Ellipsis], where [format_spec] gives [*] and [...]. *)
Theorem diagnostic_renders_raw_spec :
  exists e,
    (check_shape (mkPyValue "ndarray" (Some [7; 8])) [SNone; SInt 9] "x" None ∅).1
    = Raise (ShapeGuardErr e) /\
    expected e = Some [SNone; SInt 9] /\
    ShapeGuardError_lines e !! 2%nat = Some "  expected: (None, 9)" /\
    format_spec [SNone; SInt 9] = "(*, 9)" /\
    _format_shape [SEllipsis; SInt 3] = "(Ellipsis, 3)" /\
    format_spec [SEllipsis; SInt 3] = "(..., 3)".
Proof.
  eexists. split; [vm_compute; reflexivity|]. repeat split.
Qed.

(** C7.  Matching any concrete dimension against a wildcard ([None])
    succeeds and leaves the store as it was, in [_match_dim] and at any
    position of a shape read by the loops of [match_shape]. *)
Theorem wildcard_matches_without_binding (actual_dim index : Z)
    (actual_shape : list Z) (spec : ShapeSpec) (ctx : UnificationContext)
    (source : string) (leading trailing : list Z) :
  _match_dim actual_dim SNone index actual_shape spec ctx source = (Return tt, ctx) /\
  match_at (leading ++ actual_dim :: trailing) spec source (len leading) SNone ctx
  = (Return tt, ctx).
Proof.
  split; [reflexivity|].
  unfold match_at, and_then.
  rewrite (tuple_getitem_in_range _ _ actual_dim).
  - reflexivity.
  - unfold len. lia.
  - unfold len. rewrite Nat2Z.id. by apply list_lookup_middle.
Qed.

(** C8.  For a dimension already bound in the store: any number of further
    [bind] calls of it to the same value (whatever their source labels) all
    succeed and leave the store as it is, and a [bind] to a different value
    raises the unification conflict and does not overwrite the binding. *)
Theorem bind_idempotent_never_overwrites (ctx : UnificationContext) (dim : Dim)
    (value : Z) (bound_source : string) :
  ctx_lookup dim ctx = Some (value, bound_source) ->
  (forall sources : list string,
     for_each sources (fun source => bind dim value source) ctx = (Return tt, ctx)) /\
  (forall (other : Z) (source : string), other <> value ->
     bind dim other source ctx
     = (Raise (ShapeGuardErr (UnificationError dim value bound_source other source)), ctx)
     /\ ctx_lookup dim (bind dim other source ctx).2 = Some (value, bound_source)).
Proof.
  intros Hbound. split.
  - induction sources as [|source sources IH]; simpl; [reflexivity|].
    unfold and_then. by rewrite (bind_same _ _ _ bound_source).
  - intros other source Hne.
    rewrite (bind_conflict _ _ _ value bound_source) by done. done.
Qed.

(** C9.  [match_shape] never performs an out-of-range tuple access: no call
    ends in an [IndexError]; and once the rank check has passed, the call is
    the loop over [elements_in_order] -- indices [i < len(before)], then
    [len(actual) - len(after) + i] for [i < len(after)], or [i < len(spec)]
    without an ellipsis -- reading [actual] at each of these indices, every
    one of which lies in [0 .. len(actual) - 1]. *)
Theorem match_shape_reads_in_bounds (actual : list Z) (spec : ShapeSpec)
    (ctx : UnificationContext) (source : string) :
  raises is_IndexError (match_shape actual spec ctx source).1 = false /\
  (rank_ok actual spec = true ->
     match_shape actual spec ctx source
     = for_each (elements_in_order actual spec)
         (fun p => match_at actual spec source p.1 p.2) ctx /\
     Forall (fun p => 0 <= p.1 < len actual) (elements_in_order actual spec)).
Proof.
  assert (Hin : rank_ok actual spec = true ->
                Forall (fun p => 0 <= p.1 < len actual) (elements_in_order actual spec)).
  { intros Hr. apply Forall_forall. intros p Hp. by apply (elements_in_bounds _ spec). }
  split.
  - destruct (rank_ok actual spec) eqn:Hr.
    + rewrite match_shape_runs_elements by done.
      destruct (for_each _ _ ctx) as [[[]|e] c] eqn:Hloop; [done|].
      apply for_each_Raise in Hloop as (earlier & failing & rest & mid & Hsplit & _ & Hf).
      assert (Hb : 0 <= failing.1 < len actual).
      { eapply (proj1 (Forall_forall _ _) (Hin eq_refl)).
        rewrite Hsplit. apply elem_of_app. right. by left. }
      pose proof (match_at_in_bounds_no_IndexError actual spec source
                    failing.1 failing.2 mid Hb) as Hno.
      by rewrite Hf in Hno.
    + by destruct (match_shape_rank_not_ok actual spec ctx source Hr)
        as (_ & e & -> & [[r ->]|[_ ->]]).
  - intros Hr. split; [by apply match_shape_runs_elements|by apply Hin].
Qed.

(** C10.  [check_shape] returns the address of the very store object it was
    passed (of a fresh empty one, at an address the heap did not hold, when
    none was passed), that object holding what [match_shape] left in it.
    When [match_shape] raises a [ShapeGuardError], [check_shape] raises that
    error with its [argument] set to [name] and every other field as it was. *)
Theorem check_shape_returns_ctx_and_names_error (x : PyValue) (shape : list Z)
    (spec : ShapeSpec) (name : string) (ctx_arg : option positive)
    (heap : gmap positive UnificationContext) (ctx : positive)
    (store : UnificationContext) :
  shape_attr x = Some shape ->
  ctx_object ctx_arg heap ctx store ->
  (ctx_arg = None -> heap !! ctx = None) /\
  (forall store',
     match_shape shape spec store name = (Return tt, store') ->
     check_shape x spec name ctx_arg heap = (Return ctx, <[ctx := store']> heap)) /\
  (forall e store',
     match_shape shape spec store name = (Raise (ShapeGuardErr e), store') ->
     check_shape x spec name ctx_arg heap
     = (Raise (ShapeGuardErr (set_argument e name)), <[ctx := store']> heap) /\
     argument (set_argument e name) = Some name /\
     err_class (set_argument e name) = err_class e /\
     message (set_argument e name) = message e /\
     function (set_argument e name) = function e /\
     expected (set_argument e name) = expected e /\
     actual (set_argument e name) = actual e /\
     reason (set_argument e name) = reason e /\
     bindings (set_argument e name) = bindings e).
Proof.
  intros Hshape Hctx.
  assert (Hrun : forall r store',
            match_shape shape spec store name = (r, store') ->
            check_shape x spec name ctx_arg heap
            = (match r with
               | Return _ => Return ctx
               | Raise (ShapeGuardErr e) => Raise (ShapeGuardErr (set_argument e name))
               | Raise e => Raise e
               end, <[ctx := store']> heap)).
  { intros r store' Hm. unfold check_shape, get_shape. rewrite Hshape.
    destruct ctx_arg as [given|]; simpl in Hctx.
    - destruct Hctx as [-> Hstore].
      rewrite (lookup_total_correct heap given store Hstore), Hm.
      by destruct r as [[]|[]].
    - destruct Hctx as [-> ->].
      rewrite lookup_total_insert_eq, Hm, insert_insert_eq.
      by destruct r as [[]|[]]. }
  split; [|split].
  - intros ->. destruct Hctx as [-> _].
    apply not_elem_of_dom. apply is_fresh.
  - intros store' Hm. by rewrite (Hrun _ _ Hm).
  - intros e store' Hm. by rewrite (Hrun _ _ Hm).
Qed.

(** * Further properties *)

(** The store only grows across a call: what [match_shape] leaves is the
    store it was given followed by the bindings it added, whether it
    returns or raises. *)
Theorem match_shape_store_only_grows (actual : list Z) (spec : ShapeSpec)
    (ctx : UnificationContext) (source : string) :
  exists added, (match_shape actual spec ctx source).2 = ctx ++ added.
Proof.
  destruct (rank_ok actual spec) eqn:Hr.
  - rewrite match_shape_runs_elements by done. apply for_each_match_at_grows.
  - destruct (match_shape_rank_not_ok actual spec ctx source Hr) as [-> _].
    exists []. by rewrite app_nil_r.
Qed.

(** A match that returns has checked every element it went through
    against the dimension at its index, and the store it leaves still says
    so for each of them. *)
Theorem match_shape_success_sound (actual : list Z) (spec : ShapeSpec)
    (ctx : UnificationContext) (source : string) (ctx' : UnificationContext) :
  match_shape actual spec ctx source = (Return tt, ctx') ->
  rank_ok actual spec = true /\
  Forall (fun p => exists a, actual !! Z.to_nat p.1 = Some a /\ elem_holds ctx' a p.2)
    (elements_in_order actual spec).
Proof.
  intros Hm. destruct (rank_ok actual spec) eqn:Hr.
  2:{ destruct (match_shape_rank_not_ok actual spec ctx source Hr) as (_ & e & He & _).
      by rewrite Hm in He. }
  split; [done|]. rewrite match_shape_runs_elements in Hm by done.
  assert (Hb : Forall (fun p => 0 <= p.1 < len actual) (elements_in_order actual spec)).
  { apply Forall_forall. intros p Hp. by apply (elements_in_bounds _ spec). }
  revert ctx Hm. induction Hb as [|p items Hp _ IH]; intros ctx Hm; [constructor|].
  cbn [for_each] in Hm. unfold and_then in Hm.
  destruct (match_at actual spec source p.1 p.2 ctx) as [[[]|e] mid] eqn:Hat; [|done].
  constructor; [|by apply (IH mid)].
  destruct (lookup_lt_is_Some_2 actual (Z.to_nat p.1)) as [a Ha];
    [unfold len in Hp; lia|].
  exists a. split; [done|].
  rewrite (match_at_in_range _ _ _ _ _ a) in Hat by (done || lia).
  apply match_dim_Return_holds in Hat.
  destruct (for_each_match_at_grows actual spec source items mid) as [added Hadd].
  rewrite Hm in Hadd. simpl in Hadd. subst ctx'. by apply elem_holds_app.
Qed.

(** ** [_split_ellipsis_spec] *)

Lemma ellipsis_indices_from_count (spec : ShapeSpec) start :
  length (ellipsis_indices_from start spec) = length (List.filter is_ellipsis spec).
Proof.
  revert start. induction spec as [|s spec IH]; intros start; [reflexivity|].
  unfold ellipsis_indices_from in *. simpl.
  destruct (is_ellipsis s); simpl; by rewrite IH.
Qed.

Lemma ellipsis_indices_from_none (spec : ShapeSpec) start :
  ellipsis_indices_from start spec = [] -> _has_ellipsis spec = false.
Proof.
  revert start. induction spec as [|s spec IH]; intros start; [reflexivity|].
  unfold ellipsis_indices_from in *. simpl.
  destruct (is_ellipsis s); simpl; [discriminate|]. apply IH.
Qed.

(** A specification with a single ellipsis index is cut by it in two parts
    without ellipsis. *)
Lemma ellipsis_indices_from_single (spec : ShapeSpec) start idx :
  ellipsis_indices_from start spec = [idx] ->
  exists before ell after,
    spec = before ++ ell :: after /\ is_ellipsis ell = true /\
    _has_ellipsis before = false /\ _has_ellipsis after = false.
Proof.
  revert start. induction spec as [|s spec IH]; intros start; [discriminate|].
  unfold ellipsis_indices_from in *. simpl.
  destruct (is_ellipsis s) eqn:Hs; simpl.
  - intros [= _ Hrest]. apply ellipsis_indices_from_none in Hrest.
    by exists [], s, spec.
  - intros (before & ell & after & -> & Hell & Hb & Ha)%IH.
    exists (s :: before), ell, after. simpl. by rewrite Hs, Hb.
Qed.

(** What [_split_ellipsis_spec] returns, for every specification: the
    [ValueError] exactly when two or more elements are ellipses; otherwise
    two parts without ellipsis that put the specification back together --
    the specification itself and the empty tuple when it has no ellipsis,
    the elements before and after the ellipsis when it has one. *)
Theorem split_ellipsis_spec_recomposes (spec : ShapeSpec) :
  match _split_ellipsis_spec spec with
  | inl e =>
      e = ValueError "Shape spec cannot contain more than one ellipsis" /\
      (2 <= length (List.filter is_ellipsis spec))%nat
  | inr (before, after) =>
      (length (List.filter is_ellipsis spec) <= 1)%nat /\
      _has_ellipsis before = false /\ _has_ellipsis after = false /\
      if _has_ellipsis spec
      then exists ell, is_ellipsis ell = true /\ spec = before ++ ell :: after
      else before = spec /\ after = []
  end.
Proof.
  pose proof (ellipsis_indices_from_count spec 0) as Hcount.
  change (ellipsis_indices_from 0 spec) with (ellipsis_indices spec) in Hcount.
  destruct (ellipsis_indices spec) as [|idx [|idx' rest]] eqn:Hidx.
  - assert (Hno : _has_ellipsis spec = false) by by apply (ellipsis_indices_from_none spec 0).
    unfold _split_ellipsis_spec. rewrite Hidx. simpl in *. rewrite Hno.
    rewrite filter_ellipsis_id by done. repeat split; try done. lia.
  - destruct (ellipsis_indices_from_single spec 0 idx Hidx)
      as (before & ell & after & -> & Hell & Hb & Ha).
    rewrite split_one_ellipsis by done.
    rewrite has_ellipsis_app. simpl in *. rewrite Hell, orb_true_r.
    repeat split; try done; [lia|]. by exists ell.
  - unfold _split_ellipsis_spec. rewrite Hidx. simpl in *.
    destruct (Z.ltb_spec 1 (len (idx :: idx' :: rest))) as [_|Hle].
    + split; [done|lia].
    + unfold len in Hle. simpl in Hle. lia.
Qed.

(** ** What a match that returns has established *)

Lemma match_dim_holds_noop actual_dim spec_dim index actual_shape spec ctx source :
  elem_holds ctx actual_dim spec_dim ->
  _match_dim actual_dim spec_dim index actual_shape spec ctx source = (Return tt, ctx).
Proof.
  destruct spec_dim as [n|d| | |o|o]; simpl; try done.
  - intros ->. by rewrite bool_decide_false by (by intros ?).
  - intros [bound_source Hl]. by apply (bind_same _ _ _ bound_source).
Qed.

(** A loop whose elements all hold already returns and changes nothing. *)
Lemma for_each_holds_noop actual spec source (items : list (Z * SpecElem)) ctx :
  Forall (fun p => 0 <= p.1 /\ exists a, actual !! Z.to_nat p.1 = Some a
                                        /\ elem_holds ctx a p.2) items ->
  for_each items (fun p => match_at actual spec source p.1 p.2) ctx = (Return tt, ctx).
Proof.
  induction 1 as [|p items (Hp & a & Ha & Hh) _ IH]; [reflexivity|].
  cbn [for_each]. unfold and_then.
  rewrite (match_at_in_range _ _ _ _ _ a) by done.
  by rewrite match_dim_holds_noop.
Qed.

(** A loop that returns leaves a store in which each of its elements holds
    of the dimension at its index. *)
Lemma for_each_Return_holds actual spec source (items : list (Z * SpecElem)) :
  Forall (fun p => 0 <= p.1 < len actual) items ->
  forall ctx ctx',
    for_each items (fun p => match_at actual spec source p.1 p.2) ctx = (Return tt, ctx') ->
    Forall (fun p => 0 <= p.1 /\ exists a, actual !! Z.to_nat p.1 = Some a
                                          /\ elem_holds ctx' a p.2) items.
Proof.
  induction 1 as [|p items Hp _ IH]; intros ctx ctx' Hm; [constructor|].
  cbn [for_each] in Hm. unfold and_then in Hm.
  destruct (match_at actual spec source p.1 p.2 ctx) as [[[]|e] mid] eqn:Hat; [|done].
  constructor; [|by apply (IH mid)].
  split; [lia|].
  destruct (lookup_lt_is_Some_2 actual (Z.to_nat p.1)) as [a Ha];
    [unfold len in Hp; lia|].
  exists a. split; [done|].
  rewrite (match_at_in_range _ _ _ _ _ a) in Hat by (done || lia).
  apply match_dim_Return_holds in Hat.
  destruct (for_each_match_at_grows actual spec source items mid) as [added Hadd].
  rewrite Hm in Hadd. simpl in Hadd. subst ctx'. by apply elem_holds_app.
Qed.

Lemma match_shape_Return_holds actual spec ctx source ctx' :
  match_shape actual spec ctx source = (Return tt, ctx') ->
  rank_ok actual spec = true /\
  (exists added, ctx' = ctx ++ added) /\
  Forall (fun p => 0 <= p.1 /\ exists a, actual !! Z.to_nat p.1 = Some a
                                        /\ elem_holds ctx' a p.2)
    (elements_in_order actual spec).
Proof.
  intros Hm. destruct (rank_ok actual spec) eqn:Hr.
  2:{ destruct (match_shape_rank_not_ok actual spec ctx source Hr) as (_ & e & He & _).
      by rewrite Hm in He. }
  split; [done|]. rewrite match_shape_runs_elements in Hm by done. split.
  - destruct (for_each_match_at_grows actual spec source
                (elements_in_order actual spec) ctx) as [added Hadd].
    rewrite Hm in Hadd. by exists added.
  - apply (for_each_Return_holds actual spec source _) with (ctx := ctx); [|done].
    apply Forall_forall. intros p Hp. by apply (elements_in_bounds _ spec).
Qed.

(** Matching again is free: after [match_shape] has returned, the same
    shape matched against the same specification on the store it left, under
    any label, returns again and leaves that store as it is. *)
Theorem match_shape_again_changes_nothing (actual : list Z) (spec : ShapeSpec)
    (ctx : UnificationContext) (source : string) (ctx' : UnificationContext)
    (source' : string) :
  match_shape actual spec ctx source = (Return tt, ctx') ->
  match_shape actual spec ctx' source' = (Return tt, ctx').
Proof.
  intros (Hr & _ & Hh)%match_shape_Return_holds.
  rewrite match_shape_runs_elements by done. by apply for_each_holds_noop.
Qed.

(** One symbolic dimension, one value: when a match returns, any two
    positions it checked against the same [Dim] hold the same dimension; and
    when a second match on the store the first one left returns too, a
    position of the second shape checked against that [Dim] holds the
    dimension the first shape has at its position. *)
Theorem shared_dim_forces_equal_dimensions (actual1 actual2 : list Z)
    (spec1 spec2 : ShapeSpec) (source1 source2 : string)
    (ctx ctx1 ctx2 : UnificationContext) (dim : Dim) (i1 : Z) :
  match_shape actual1 spec1 ctx source1 = (Return tt, ctx1) ->
  (i1, SDim dim) ∈ elements_in_order actual1 spec1 ->
  exists v,
    actual1 !! Z.to_nat i1 = Some v /\
    (forall j, (j, SDim dim) ∈ elements_in_order actual1 spec1 ->
       actual1 !! Z.to_nat j = Some v) /\
    (match_shape actual2 spec2 ctx1 source2 = (Return tt, ctx2) ->
     forall i2, (i2, SDim dim) ∈ elements_in_order actual2 spec2 ->
       actual2 !! Z.to_nat i2 = Some v).
Proof.
  intros (_ & _ & Hh1)%match_shape_Return_holds Hin1.
  pose proof (proj1 (Forall_forall _ _) Hh1 _ Hin1) as (_ & v & Hv & src & Hl).
  simpl in *. exists v. split; [done|]. split.
  - intros j Hj.
    pose proof (proj1 (Forall_forall _ _) Hh1 _ Hj) as (_ & w & Hw & src' & Hl').
    simpl in *. congruence.
  - intros (_ & [added ->] & Hh2)%match_shape_Return_holds i2 Hin2.
    pose proof (proj1 (Forall_forall _ _) Hh2 _ Hin2) as (_ & w & Hw & src' & Hl').
    simpl in *. rewrite (ctx_lookup_app _ _ added _ Hl) in Hl'. congruence.
Qed.

(** A binding is never changed: a dimension bound in the store before a
    [match_shape] call has the same value and the same provenance label
    after it, whether the call returns or raises. *)
Theorem match_shape_keeps_bindings (actual : list Z) (spec : ShapeSpec)
    (ctx : UnificationContext) (source : string) (dim : Dim) (value : Z)
    (bound_source : string) :
  ctx_lookup dim ctx = Some (value, bound_source) ->
  ctx_lookup dim (match_shape actual spec ctx source).2 = Some (value, bound_source).
Proof.
  intros Hl.
  assert (exists added, (match_shape actual spec ctx source).2 = ctx ++ added)
    as [added ->].
  { destruct (rank_ok actual spec) eqn:Hr.
    - rewrite match_shape_runs_elements by done. apply for_each_match_at_grows.
    - destruct (match_shape_rank_not_ok actual spec ctx source Hr) as [-> _].
      exists []. by rewrite app_nil_r. }
  by apply ctx_lookup_app.
Qed.

(** ** Specifications without symbolic dimensions *)

Lemma match_at_not_symbolic actual spec source idx spec_dim ctx :
  is_symbolic spec_dim = false ->
  (match_at actual spec source idx spec_dim ctx).2 = ctx.
Proof.
  intros Hd. unfold match_at, and_then.
  pose proof (tuple_getitem_store actual idx ctx) as Hs.
  destruct (tuple_getitem actual idx ctx) as [[a|e0] c]; simpl in Hs; subst c; [|done].
  destruct spec_dim as [n|d| | |o|o]; simpl; try done. by case_bool_decide.
Qed.

(** Only symbolic dimensions write to the store: against a specification
    that holds no [Dim], [match_shape] leaves the store exactly as given,
    whether it returns or raises. *)
Theorem match_shape_without_dims_keeps_store (actual : list Z) (spec : ShapeSpec)
    (ctx : UnificationContext) (source : string) :
  existsb is_symbolic spec = false ->
  (match_shape actual spec ctx source).2 = ctx.
Proof.
  intros Hno. destruct (rank_ok actual spec) eqn:Hr.
  - rewrite match_shape_runs_elements by done.
    apply (for_each_invariant _ _ (fun c => c = ctx) (fun _ => True)); [|done].
    intros p c [Hp _]%elements_from_spec ->. split; [|done].
    apply match_at_not_symbolic.
    destruct (is_symbolic p.2) eqn:Hs; [|done].
    assert (existsb is_symbolic spec = true); [|congruence].
    apply existsb_exists. exists p.2. by rewrite <- list_elem_of_In.
  - by destruct (match_shape_rank_not_ok actual spec ctx source Hr) as [-> _].
Qed.

Lemma enumerate_from_lookup_2 {A} (l : list A) start i x :
  l !! i = Some x -> enumerate_from start l !! i = Some (start + Z.of_nat i, x).
Proof.
  revert start i. induction l as [|y l IH]; intros start i H; [done|].
  destruct i as [|i]; simpl in *.
  - injection H as ->. do 2 f_equal. lia.
  - rewrite (IH _ _ H). do 2 f_equal. lia.
Qed.

Lemma exact_no_ellipsis (spec : ShapeSpec) :
  forallb is_exact spec = true -> _has_ellipsis spec = false.
Proof.
  induction spec as [|d spec IH]; simpl; [done|].
  intros [Hd Hs]%andb_true_iff. rewrite (IH Hs), orb_false_r. by destruct d.
Qed.

(** Against a specification of integers and wildcards only, [match_shape]
    returns exactly when the shape has the length of the specification and
    every dimension is the integer at its position or faces a wildcard; the
    store is then the one given. *)
Theorem exact_spec_matches_iff (actual : list Z) (spec : ShapeSpec)
    (ctx : UnificationContext) (source : string) :
  forallb is_exact spec = true ->
  match_shape actual spec ctx source = (Return tt, ctx) <-> Forall2 agrees actual spec.
Proof.
  intros Hexact. pose proof (exact_no_ellipsis spec Hexact) as Hno.
  assert (Hel : elements_in_order actual spec = enumerate spec).
  { unfold elements_in_order. by rewrite Hno, filter_ellipsis_id. }
  assert (Hholds : forall c a d, d ∈ spec -> elem_holds c a d <-> agrees a d).
  { intros c a d Hd. assert (is_exact d = true) as He.
    { apply (proj1 (forallb_forall is_exact spec) Hexact). by apply list_elem_of_In. }
    by destruct d. }
  split.
  - intros (Hr & _ & Hh)%match_shape_Return_holds. rewrite Hel in Hh.
    unfold rank_ok in Hr. rewrite Hno in Hr.
    apply negb_true_iff, bool_decide_eq_false in Hr.
    apply Forall2_same_length_lookup_2; [unfold len in Hr; lia|].
    intros i a d Ha Hd.
    pose proof (enumerate_from_lookup_2 spec 0 i d Hd) as Hp.
    apply list_elem_of_lookup_2 in Hp.
    pose proof (proj1 (Forall_forall _ _) Hh _ Hp) as (_ & a' & Ha' & Hh').
    simpl in Ha', Hh'. rewrite Z.add_0_l, Nat2Z.id in Ha'.
    apply (Hholds ctx a d); [by eapply list_elem_of_lookup_2|]. congruence.
  - intros Hall.
    assert (Hr : rank_ok actual spec = true).
    { unfold rank_ok. rewrite Hno. apply negb_true_iff, bool_decide_eq_false.
      apply Forall2_length in Hall. unfold len. lia. }
    rewrite match_shape_runs_elements, Hel by done.
    apply for_each_holds_noop, Forall_forall. intros p [i Hi]%list_elem_of_lookup.
    apply enumerate_from_lookup in Hi as [Hidx Hd].
    destruct (Forall2_lookup_r _ _ _ _ _ Hall Hd) as (a & Ha & Hag).
    rewrite Hidx, Z.add_0_l, Nat2Z.id. split; [lia|].
    exists a. split; [done|]. apply Hholds; [by eapply list_elem_of_lookup_2|done].
Qed.

(** ** What a diagnostic says about the failure *)

(** Each diagnostic of [match_shape] locates its failure.  A
    [DimensionMismatchError] names an index the loops went through, the
    integer asked for there and the different dimension found there.  A
    [UnificationError] carries the dimension found at such an index -- under
    the label [source[index]] -- and the value and label the store holds for
    the [Dim].  A [RankMismatchError] comes before any element, with the
    store untouched. *)
Theorem diagnostic_locates_failure (shape : list Z) (spec : ShapeSpec)
    (ctx : UnificationContext) (source : string) (d : ShapeGuardError)
    (ctx' : UnificationContext) :
  match_shape shape spec ctx source = (Raise (ShapeGuardErr d), ctx') ->
  match err_class d with
  | DimensionMismatchErrorCls =>
      exists index n a,
        (index, SInt n) ∈ elements_in_order shape spec /\
        0 <= index /\ shape !! Z.to_nat index = Some a /\ a <> n /\
        d = DimensionMismatchError index n a spec shape (Some (format_bindings ctx'))
  | UnificationErrorCls dim bound_value bound_source value value_source =>
      exists index,
        (index, SDim dim) ∈ elements_in_order shape spec /\
        0 <= index /\ shape !! Z.to_nat index = Some value /\
        value_source = source +:+ "[" +:+ pretty index +:+ "]" /\
        ctx_lookup dim ctx' = Some (bound_value, bound_source) /\
        bound_value <> value
  | RankMismatchErrorCls => rank_ok shape spec = false /\ ctx' = ctx
  end.
Proof.
  intros [(Hr & -> & [[r [= ->]]|[_ [=]]])
         |(Hr & earlier & [index sd] & rest & Hsplit & _ & Hf)]%match_shape_Raise.
  - done.
  - assert (Hin : (index, sd) ∈ elements_in_order shape spec).
    { rewrite Hsplit. apply elem_of_app. right. by left. }
    pose proof (elements_in_bounds _ _ _ Hr Hin) as Hb. simpl in Hb, Hf.
    destruct (lookup_lt_is_Some_2 shape (Z.to_nat index)) as [a Ha];
      [unfold len in Hb; lia|].
    rewrite (match_at_in_range _ _ _ _ _ a) in Hf by (done || lia).
    apply match_dim_Raise in Hf as [_ Hf].
    inversion Hf; subst; simpl.
    + exists index, n, a. repeat split; try done. lia.
    + exists index. repeat split; try done. lia.
Qed.

(** ** Labels *)

Lemma match_dim_any_label actual_dim spec_dim index actual_shape spec c1 c2 s1 s2 :
  ctx_values c1 = ctx_values c2 ->
  raised (_match_dim actual_dim spec_dim index actual_shape spec c1 s1).1
  = raised (_match_dim actual_dim spec_dim index actual_shape spec c2 s2).1 /\
  ctx_values (_match_dim actual_dim spec_dim index actual_shape spec c1 s1).2
  = ctx_values (_match_dim actual_dim spec_dim index actual_shape spec c2 s2).2.
Proof.
  intros Hv. destruct spec_dim as [n|d| | |o|o]; simpl; try done.
  - by case_bool_decide.
  - unfold bind. pose proof (ctx_lookup_values d c1 c2 Hv) as Hl.
    destruct (ctx_lookup d c1) as [[v1 l1]|], (ctx_lookup d c2) as [[v2 l2]|];
      try done; simpl in Hl.
    + injection Hl as ->. by case_bool_decide.
    + split; [done|]. cbn [fst snd]. unfold ctx_values in *.
      rewrite !List.map_app. by rewrite Hv.
Qed.

Lemma for_each_any_label actual spec (items : list (Z * SpecElem)) s1 s2 :
  forall c1 c2,
    ctx_values c1 = ctx_values c2 ->
    raised (for_each items (fun p => match_at actual spec s1 p.1 p.2) c1).1
    = raised (for_each items (fun p => match_at actual spec s2 p.1 p.2) c2).1 /\
    ctx_values (for_each items (fun p => match_at actual spec s1 p.1 p.2) c1).2
    = ctx_values (for_each items (fun p => match_at actual spec s2 p.1 p.2) c2).2.
Proof.
  induction items as [|p items IH]; intros c1 c2 Hv; [done|].
  cbn [for_each]. unfold match_at in *. unfold and_then in *.
  pose proof (tuple_getitem_store actual p.1 c1) as H1.
  pose proof (tuple_getitem_store actual p.1 c2) as H2.
  assert ((tuple_getitem actual p.1 c1).1 = (tuple_getitem actual p.1 c2).1) as Hsame.
  { unfold tuple_getitem. destruct (_ && _); [destruct (actual !! _)|]; done. }
  destruct (tuple_getitem actual p.1 c1) as [[a|e1] c1'],
           (tuple_getitem actual p.1 c2) as [[a'|e2] c2'];
    simpl in H1, H2, Hsame; subst; try done.
  injection Hsame as ->.
  destruct (match_dim_any_label a' p.2 p.1 actual spec c1 c2 s1 s2 Hv) as [Hr Hs].
  destruct (_match_dim a' p.2 p.1 actual spec c1 s1) as [[[]|?] ?],
           (_match_dim a' p.2 p.1 actual spec c2 s2) as [[[]|?] ?]; try done.
  by apply IH.
Qed.

(** The label only labels: two [match_shape] calls that differ in the
    [source] label alone both return or both raise, and leave stores that
    bind the same dimensions to the same values, in the same order. *)
Theorem match_shape_label_only_labels (actual : list Z) (spec : ShapeSpec)
    (ctx : UnificationContext) (source1 source2 : string) :
  raised (match_shape actual spec ctx source1).1
  = raised (match_shape actual spec ctx source2).1 /\
  ctx_values (match_shape actual spec ctx source1).2
  = ctx_values (match_shape actual spec ctx source2).2.
Proof.
  destruct (rank_ok actual spec) eqn:Hr.
  - rewrite !match_shape_runs_elements by done. by apply for_each_any_label.
  - destruct (match_shape_rank_not_ok actual spec ctx source1 Hr) as (-> & e1 & -> & _).
    by destruct (match_shape_rank_not_ok actual spec ctx source2 Hr) as (-> & e2 & -> & _).
Qed.

(** ** [check_shape] and the other stores *)

(** [check_shape] writes to one store object only, the one it works on:
    every other store of the heap is as it was after the call.  When the
    value has no [shape] attribute nothing is written to the store passed in
    either. *)
Theorem check_shape_touches_only_its_store (x : PyValue) (spec : ShapeSpec)
    (name : string) (ctx_arg : option positive)
    (heap : gmap positive UnificationContext) (other : positive)
    (store : UnificationContext) :
  heap !! other = Some store ->
  ctx_arg <> Some other \/ shape_attr x = None ->
  (check_shape x spec name ctx_arg heap).2 !! other = Some store.
Proof.
  intros Hother Hcase. unfold check_shape, get_shape.
  assert (Hfresh : fresh (dom heap) <> other).
  { intros <-. apply (is_fresh (dom heap)). apply elem_of_dom. by eexists. }
  destruct (shape_attr x) as [shape|].
  - destruct Hcase as [Hne|]; [|done].
    destruct ctx_arg as [given|].
    + destruct (match_shape shape spec (heap !!! given) name) as [r s].
      assert (given <> other) by congruence.
      destruct r as [[]|[]]; simpl; by rewrite lookup_insert_ne.
    + destruct (match_shape shape spec _ name) as [r s].
      destruct r as [[]|[]]; simpl; by rewrite !lookup_insert_ne.
  - destruct ctx_arg as [given|]; simpl; [done|]. by rewrite lookup_insert_ne.
Qed.

(** Checks chained on one store agree on a shared [Dim]: when
    [check_shape] returns a store and a second [check_shape] given that store
    returns too, a position of the second shape checked against a [Dim] holds
    the dimension the first shape has at a position checked against the same
    [Dim]. *)
Theorem check_shape_chain_shares_dims (x y : PyValue) (shape_x shape_y : list Z)
    (spec_x spec_y : ShapeSpec) (name_x name_y : string) (ctx_arg : option positive)
    (heap heap1 heap2 : gmap positive UnificationContext) (ctx ctx2 : positive)
    (dim : Dim) (i j : Z) :
  shape_attr x = Some shape_x ->
  shape_attr y = Some shape_y ->
  check_shape x spec_x name_x ctx_arg heap = (Return ctx, heap1) ->
  check_shape y spec_y name_y (Some ctx) heap1 = (Return ctx2, heap2) ->
  (i, SDim dim) ∈ elements_in_order shape_x spec_x ->
  (j, SDim dim) ∈ elements_in_order shape_y spec_y ->
  ctx2 = ctx /\
  exists v, shape_x !! Z.to_nat i = Some v /\ shape_y !! Z.to_nat j = Some v.
Proof.
  intros Hx Hy H1 H2 Hi Hj.
  assert (exists store0 store1,
            match_shape shape_x spec_x store0 name_x = (Return tt, store1) /\
            heap1 !!! ctx = store1) as (store0 & store1 & Hm1 & Hl1).
  { unfold check_shape, get_shape in H1. rewrite Hx in H1.
    destruct ctx_arg as [given|].
    - destruct (match_shape shape_x spec_x (heap !!! given) name_x)
        as [[[]|[]] s] eqn:Hm; try done.
      injection H1 as <- <-. exists (heap !!! given), s.
      by rewrite lookup_total_insert_eq.
    - rewrite lookup_total_insert_eq in H1.
      destruct (match_shape shape_x spec_x [] name_x) as [[[]|[]] s] eqn:Hm; try done.
      injection H1 as <- <-. exists [], s. by rewrite lookup_total_insert_eq. }
  unfold check_shape, get_shape in H2. rewrite Hy, Hl1 in H2.
  destruct (match_shape shape_y spec_y store1 name_y) as [[[]|[]] store2] eqn:Hm2;
    try done.
  injection H2 as <- <-. split; [done|].
  apply match_shape_Return_holds in Hm1 as (_ & _ & Hh1).
  apply match_shape_Return_holds in Hm2 as (_ & [added ->] & Hh2).
  pose proof (proj1 (Forall_forall _ _) Hh1 _ Hi) as (_ & v & Hv & src & Hl).
  pose proof (proj1 (Forall_forall _ _) Hh2 _ Hj) as (_ & w & Hw & src' & Hl').
  simpl in *. rewrite (ctx_lookup_app _ _ added _ Hl) in Hl'.
  exists v. split; [done|]. congruence.
Qed.

(** ** The rendered report *)

Lemma match_shape_diagnostic_unnamed shape spec ctx source d ctx' :
  match_shape shape spec ctx source = (Raise (ShapeGuardErr d), ctx') ->
  function d = None /\ argument d = None.
Proof.
  intros [(_ & _ & [[r [= ->]]|[_ [=]]])
         |(_ & earlier & failing & rest & _ & _ & Hf)]%match_shape_Raise; [done|].
  apply match_at_Raise in Hf as [_ [[He _]|(a & _ & Hf)]]; [done|].
  inversion Hf; subst; done.
Qed.

(** What [check_shape] adds to the report of a diagnostic of [match_shape]:
    its [__str__] gains the line naming the argument, right after the
    heading, and every other line stays; with an empty [name] no line is
    added and the report is the one the diagnostic had. *)
Theorem check_shape_adds_argument_line (shape : list Z) (spec : ShapeSpec)
    (ctx : UnificationContext) (name : string) (d : ShapeGuardError)
    (ctx' : UnificationContext) :
  match_shape shape spec ctx name = (Raise (ShapeGuardErr d), ctx') ->
  ShapeGuardError_lines (set_argument d name)
  = if bool_decide (name = "") then ShapeGuardError_lines d
    else "ShapeGuardError:" :: ("  argument: " +:+ name)
           :: tail (ShapeGuardError_lines d).
Proof.
  intros [Hf Ha]%match_shape_diagnostic_unnamed.
  destruct d as [cls msg f a ex ac re bi]. simpl in Hf, Ha. subst f a.
  unfold ShapeGuardError_lines, set_argument. simpl.
  by case_bool_decide.
Qed.

(** ** [_compat.py] *)

Lemma prefix_first_char (c1 c2 : Ascii.ascii) (p1 p2 s : string) :
  c1 <> c2 ->
  String.prefix (String c1 p1) s = true -> String.prefix (String c2 p2) s = false.
Proof.
  intros Hne. destruct s as [|c s]; simpl; [done|].
  destruct (Ascii.ascii_dec c1 c), (Ascii.ascii_dec c2 c); try done. congruence.
Qed.

(** The three prefixes [get_array_backend] tests exclude one another, so
    each answer is decided by its own prefix alone, whatever the order of the
    tests: the backend is ["numpy"], ["jax"] or ["torch"] exactly when the
    module name starts with that word, and ["unknown"] exactly when it starts
    with none of them. *)
Theorem get_array_backend_by_prefix (x : PyObject) :
  (get_array_backend x = "numpy" <-> String.prefix "numpy" (type_module x) = true) /\
  (get_array_backend x = "jax" <-> String.prefix "jax" (type_module x) = true) /\
  (get_array_backend x = "torch" <-> String.prefix "torch" (type_module x) = true) /\
  (get_array_backend x = "unknown" <->
     String.prefix "numpy" (type_module x) = false /\
     String.prefix "jax" (type_module x) = false /\
     String.prefix "torch" (type_module x) = false).
Proof.
  unfold get_array_backend.
  destruct (String.prefix "numpy" (type_module x)) eqn:Hn.
  - assert (Hj : String.prefix "jax" (type_module x) = false)
      by (eapply prefix_first_char; [|exact Hn]; done).
    assert (Ht : String.prefix "torch" (type_module x) = false)
      by (eapply prefix_first_char; [|exact Hn]; done).
    rewrite Hj, Ht. repeat split; try done. by intros [? _].
  - destruct (String.prefix "jax" (type_module x)) eqn:Hj.
    + assert (Ht : String.prefix "torch" (type_module x) = false)
        by (eapply prefix_first_char; [|exact Hj]; done).
      rewrite Ht. repeat split; try done. by intros (_ & ? & _).
    + destruct (String.prefix "torch" (type_module x)) eqn:Ht;
        repeat split; try done. by intros (_ & _ & ?).
Qed.


(** ** Integers and wildcards around an ellipsis *)

Lemma exact_holds_iff (ctx : UnificationContext) (a : Z) (d : SpecElem) :
  is_exact d = true -> elem_holds ctx a d <-> agrees a d.
Proof. by destruct d. Qed.

Lemma exact_part_holds_iff (actual : list Z) (part : SpecPart) (start : nat)
    (ctx : UnificationContext) :
  forallb is_exact part = true ->
  (start + length part <= length actual)%nat ->
  Forall (fun p => 0 <= p.1 /\ exists a, actual !! Z.to_nat p.1 = Some a
                                        /\ elem_holds ctx a p.2)
    (enumerate_from (Z.of_nat start) part)
  <-> Forall2 agrees (take (length part) (drop start actual)) part.
Proof.
  intros Hexact Hlen.
  assert (He : forall d, d ∈ part -> is_exact d = true).
  { intros d Hd. apply (proj1 (forallb_forall is_exact part) Hexact).
    by apply list_elem_of_In. }
  split.
  - intros Hh. apply Forall2_same_length_lookup_2.
    { rewrite length_take, length_drop. lia. }
    intros i a d Ha Hd.
    pose proof (lookup_lt_Some _ _ _ Hd) as Hi.
    rewrite lookup_take_lt, lookup_drop in Ha by done.
    pose proof (enumerate_from_lookup_2 part (Z.of_nat start) i d Hd) as Hp.
    apply list_elem_of_lookup_2 in Hp.
    pose proof (proj1 (Forall_forall _ _) Hh _ Hp) as (_ & a' & Ha' & Hh').
    simpl in Ha', Hh'.
    replace (Z.to_nat (Z.of_nat start + Z.of_nat i)) with (start + i)%nat in Ha' by lia.
    apply (exact_holds_iff ctx); [by eapply He, list_elem_of_lookup_2|]. congruence.
  - intros Hall. apply Forall_forall. intros p [i Hi]%list_elem_of_lookup.
    apply enumerate_from_lookup in Hi as [Hidx Hd].
    destruct (Forall2_lookup_r _ _ _ _ _ Hall Hd) as (a & Ha & Hag).
    pose proof (lookup_lt_Some _ _ _ Hd) as Hlt.
    rewrite lookup_take_lt, lookup_drop in Ha by done.
    rewrite Hidx. split; [lia|]. exists a.
    replace (Z.to_nat (Z.of_nat start + Z.of_nat i)) with (start + i)%nat by lia.
    split; [done|]. apply exact_holds_iff; [by eapply He, list_elem_of_lookup_2|done].
Qed.

(** Around an ellipsis, with integers and wildcards on both sides:
    [match_shape] returns exactly when the shape is long enough for both
    sides, its first [len(before)] dimensions are what [before] asks for and
    its last [len(after)] dimensions are what [after] asks for; the store is
    then the one given. *)
Theorem ellipsis_exact_spec_matches_iff (before after : SpecPart) (ell : SpecElem)
    (actual : list Z) (ctx : UnificationContext) (source : string) :
  is_ellipsis ell = true ->
  forallb is_exact before = true ->
  forallb is_exact after = true ->
  match_shape actual (before ++ ell :: after) ctx source = (Return tt, ctx)
  <-> (length before + length after <= length actual)%nat /\
      Forall2 agrees (take (length before) actual) before /\
      Forall2 agrees (drop (length actual - length after) actual) after.
Proof.
  intros Hell Hb Ha.
  pose proof (exact_no_ellipsis before Hb) as Hnb.
  pose proof (exact_no_ellipsis after Ha) as Hna.
  assert (Hhas : _has_ellipsis (before ++ ell :: after) = true).
  { rewrite has_ellipsis_app. simpl. by rewrite Hell, orb_true_r. }
  split.
  - intros Hm. pose proof Hm as (Hr & _ & Hh)%match_shape_Return_holds.
    assert (Hlen : (length before + length after <= length actual)%nat).
    { unfold rank_ok in Hr. rewrite Hhas, split_one_ellipsis in Hr by done.
      apply negb_true_iff, Z.ltb_ge in Hr. unfold len in Hr. lia. }
    split; [done|].
    destruct (rank_ok_one_ellipsis before after ell actual) as (_ & _ & Hel);
      try done; [unfold len; lia|].
    rewrite Hel in Hh. apply Forall_app in Hh as [Hh1 Hh2].
    replace (len actual - len after) with (Z.of_nat (length actual - length after)) in Hh2
      by (unfold len; lia).
    split.
    + apply (exact_part_holds_iff actual before 0 ctx) in Hh1; [done|done|]. simpl. lia.
    + apply (exact_part_holds_iff actual after _ ctx) in Hh2; [|done|lia].
      by rewrite take_ge in Hh2 by (rewrite length_drop; lia).
  - intros (Hlen & H1 & H2).
    destruct (rank_ok_one_ellipsis before after ell actual) as (_ & Hr & Hel);
      try done; [unfold len; lia|].
    rewrite match_shape_runs_elements, Hel by done.
    apply for_each_holds_noop, Forall_app. split.
    + apply (exact_part_holds_iff actual before 0 ctx); [done|simpl; lia|done].
    + replace (len actual - len after) with (Z.of_nat (length actual - length after))
        by (unfold len; lia).
      apply (exact_part_holds_iff actual after _ ctx); [done|lia|].
      by rewrite take_ge by (rewrite length_drop; lia).
Qed.

End Matcher.

(** * Concrete runs

    The two strings [format_bindings] is parameterised by are fixed to
    ["{}"] and [", "] here; no statement below depends on the choice. *)

(** C1, at the shape [(2, 7, 9, 3, 4)] against [(n, ..., 3, 4)]: the match
    returns, [n] is bound to the 2 at index 0, the 3 and the 4 at indices 3
    and 4 are the integers asked for, and nothing is bound for indices 1
    and 2. *)
Lemma ellipsis_matches_leading_and_trailing_witness :
  (is_ellipsis SEllipsis = true /\
   _has_ellipsis [SDim dim_n] = false /\
   _has_ellipsis [SInt 3; SInt 4] = false /\
   len [SDim dim_n] + len [SInt 3; SInt 4] <= len [2; 7; 9; 3; 4]) /\
  match_shape "{}" ", " [2; 7; 9; 3; 4] ([SDim dim_n] ++ SEllipsis :: [SInt 3; SInt 4])
    [] "x"
  = (Return tt, [(dim_n, (2, "x[0]"))]) /\
  Forall (fun t => elem_holds [(dim_n, (2, "x[0]"))] t.2.2 t.2.1)
    [(0, (SDim dim_n, 2)); (3, (SInt 3, 3)); (4, (SInt 4, 4))].
Proof.
  assert (H4 : len [SDim dim_n] + len [SInt 3; SInt 4] <= len [2; 7; 9; 3; 4])
    by (vm_compute; discriminate).
  assert (Hm : match_shape "{}" ", " [2; 7; 9; 3; 4]
                 ([SDim dim_n] ++ SEllipsis :: [SInt 3; SInt 4]) [] "x"
               = (Return tt, [(dim_n, (2, "x[0]"))])) by reflexivity.
  split; [repeat split; exact H4|]. split; [exact Hm|].
  exact (proj1 (proj2 (proj2 (proj2
           (ellipsis_matches_leading_and_trailing "{}" ", "
              [SDim dim_n] [SInt 3; SInt 4] SEllipsis [2; 7; 9; 3; 4] [] "x"
              eq_refl eq_refl eq_refl H4)))) _ Hm).
Defined.

(** C2: a conflict on [n] (bound to 5, seen as 6) comes out as a
    [UnificationError] whose expected shape, actual shape and bindings are
    all unset. *)
Lemma unification_conflict_lacks_shapes_and_bindings :
  exists d,
    match_shape "{}" ", " [6; 2] [SDim dim_n; SInt 2] [(dim_n, (5, "x[0]"))] "y"
    = (Raise (ShapeGuardErr d), [(dim_n, (5, "x[0]"))]) /\
    err_class d = UnificationErrorCls dim_n 5 "x[0]" 6 "y[0]" /\
    expected d = None /\ actual d = None /\ bindings d = None.
Proof. eexists. split; [vm_compute; reflexivity|]. repeat split. Qed.

(** C2 as amended, at the same conflict. *)
Lemma diagnostic_fields_by_class_witness :
  match_shape "{}" ", " [6; 2] [SDim dim_n; SInt 2] [(dim_n, (5, "x[0]"))] "y"
  = (Raise (ShapeGuardErr (UnificationError dim_n 5 "x[0]" 6 "y[0]")),
     [(dim_n, (5, "x[0]"))]) /\
  reason (UnificationError dim_n 5 "x[0]" 6 "y[0]")
  = Some "dimension 'n' bound to 5 from x[0], but got 6 from y[0]".
Proof.
  assert (H : match_shape "{}" ", " [6; 2] [SDim dim_n; SInt 2]
                [(dim_n, (5, "x[0]"))] "y"
              = (Raise (ShapeGuardErr (UnificationError dim_n 5 "x[0]" 6 "y[0]")),
                 [(dim_n, (5, "x[0]"))])) by reflexivity.
  split; [exact H|].
  exact (proj1 (diagnostic_fields_by_class "{}" ", " _ _ _ _ _ _ H)).
Defined.

(** C3, at the shape [(3,)] against [(..., 3, 4)]. *)
Lemma rank_mismatch_exactly_when_rank_wrong_witness :
  _split_ellipsis_spec [SEllipsis; SInt 3; SInt 4] = inr ([], [SInt 3; SInt 4]) /\
  match_shape "{}" ", " [3] [SEllipsis; SInt 3; SInt 4] [] "x"
  = (Raise (ShapeGuardErr
       (RankMismatchError (inr "2+") 1 [SEllipsis; SInt 3; SInt 4] [3] (Some "{}"))), []).
Proof.
  split; [reflexivity|].
  refine (proj1 (proj2 (proj2 (rank_mismatch_exactly_when_rank_wrong "{}" ", "
                   [3] [SEllipsis; SInt 3; SInt 4] [] "x" [] [SInt 3; SInt 4]
                   eq_refl) eq_refl) _)).
  vm_compute. reflexivity.
Defined.

(** C4: the element ['foo'] is rejected only after [n] has been bound, and
    not at all when the rank is wrong. *)
Lemma invalid_element_rejected_after_binding :
  match_shape "{}" ", " [3; 4] [SDim dim_n; SOther py_foo] [] "x"
  = (Raise (TypeError
       "Invalid spec element at position 1: 'foo' (expected int, Dim, None, or ...)"),
     [(dim_n, (3, "x[0]"))]) /\
  match_shape "{}" ", " [3; 4; 5] [SDim dim_n; SOther py_foo] [] "x"
  = (Raise (ShapeGuardErr
       (RankMismatchError (inl 2) 3 [SDim dim_n; SOther py_foo] [3; 4; 5] (Some "{}"))),
     []).
Proof. split; reflexivity. Qed.

(** C4 as amended, at a specification with two ellipses. *)
Lemma construction_errors_where_raised_witness :
  1 < len (ellipsis_indices [SEllipsis; SInt 3; SEllipsis]) /\
  match_shape "{}" ", " [3] [SEllipsis; SInt 3; SEllipsis] [(dim_n, (5, "x[0]"))] "y"
  = (Raise (ValueError "Shape spec cannot contain more than one ellipsis"),
     [(dim_n, (5, "x[0]"))]).
Proof.
  assert (H : 1 < len (ellipsis_indices [SEllipsis; SInt 3; SEllipsis]))
    by (vm_compute; reflexivity).
  split; [exact H|].
  exact (proj1 (construction_errors_where_raised "{}" ", ") _ _ _ _ H).
Defined.

(** C5, at [(5, 6)] against [(n, n)]: the first element binds [n], the
    second conflicts and adds nothing. *)
Lemma failure_keeps_store_before_failing_element_witness :
  match_shape "{}" ", " [5; 6] [SDim dim_n; SDim dim_n] [] "x"
  = (Raise (ShapeGuardErr (UnificationError dim_n 5 "x[0]" 6 "x[1]")),
     [(dim_n, (5, "x[0]"))]) /\
  (([(dim_n, (5, "x[0]"))] = [] /\ rank_ok [5; 6] [SDim dim_n; SDim dim_n] = false) \/
   exists earlier failing rest,
     elements_in_order [5; 6] [SDim dim_n; SDim dim_n] = earlier ++ failing :: rest /\
     for_each earlier
       (fun p => match_at "{}" ", " [5; 6] [SDim dim_n; SDim dim_n] "x" p.1 p.2) []
     = (Return tt, [(dim_n, (5, "x[0]"))]) /\
     match_at "{}" ", " [5; 6] [SDim dim_n; SDim dim_n] "x" failing.1 failing.2
       [(dim_n, (5, "x[0]"))]
     = (Raise (ShapeGuardErr (UnificationError dim_n 5 "x[0]" 6 "x[1]")),
        [(dim_n, (5, "x[0]"))]) /\
     exists added, [(dim_n, (5, "x[0]"))] = [] ++ added).
Proof.
  assert (H : match_shape "{}" ", " [5; 6] [SDim dim_n; SDim dim_n] [] "x"
              = (Raise (ShapeGuardErr (UnificationError dim_n 5 "x[0]" 6 "x[1]")),
                 [(dim_n, (5, "x[0]"))])) by reflexivity.
  split; [exact H|].
  exact (failure_keeps_store_before_failing_element "{}" ", " _ _ _ _ _ _ H).
Defined.

(** C8, at a store that binds [n] to 5. *)
Lemma bind_idempotent_never_overwrites_witness :
  ctx_lookup dim_n [(dim_n, (5, "x[0]"))] = Some (5, "x[0]") /\
  for_each ["y[0]"; "z[1]"; "y[0]"] (fun source => bind dim_n 5 source)
    [(dim_n, (5, "x[0]"))]
  = (Return tt, [(dim_n, (5, "x[0]"))]).
Proof.
  split; [reflexivity|].
  exact (proj1 (bind_idempotent_never_overwrites [(dim_n, (5, "x[0]"))] dim_n 5 "x[0]"
                  eq_refl) ["y[0]"; "z[1]"; "y[0]"]).
Defined.

(** C9, at the shape [(2, 7, 3, 4)] against [(..., 3, 4)]. *)
Lemma match_shape_reads_in_bounds_witness :
  rank_ok [2; 7; 3; 4] [SEllipsis; SInt 3; SInt 4] = true /\
  Forall (fun p => 0 <= p.1 < len [2; 7; 3; 4])
    (elements_in_order [2; 7; 3; 4] [SEllipsis; SInt 3; SInt 4]).
Proof.
  split; [reflexivity|].
  exact (proj2 (proj2 (match_shape_reads_in_bounds "{}" ", "
                  [2; 7; 3; 4] [SEllipsis; SInt 3; SInt 4] [] "x") eq_refl)).
Defined.

(** C10, with the store at address 1 passed in. *)
Lemma check_shape_returns_ctx_and_names_error_witness :
  (shape_attr (mkPyValue "ndarray" (Some [5; 8])) = Some [5; 8] /\
   ctx_object (Some 1%positive) {[ 1%positive := [] ]} 1%positive []) /\
  check_shape "{}" ", " (mkPyValue "ndarray" (Some [5; 8])) [SDim dim_n; SInt 8]
    "input" (Some 1%positive) {[ 1%positive := [] ]}
  = (Return 1%positive,
     <[ 1%positive := [(dim_n, (5, "input[0]"))] ]> {[ 1%positive := [] ]}).
Proof.
  assert (Hobj : ctx_object (Some 1%positive) {[ 1%positive := [] ]} 1%positive [])
    by (split; reflexivity).
  split; [split; [reflexivity|exact Hobj]|].
  exact (proj1 (proj2 (check_shape_returns_ctx_and_names_error "{}" ", "
                  (mkPyValue "ndarray" (Some [5; 8])) [5; 8] [SDim dim_n; SInt 8]
                  "input" (Some 1%positive) {[ 1%positive := [] ]} 1%positive []
                  eq_refl Hobj)) _ eq_refl).
Defined.

(** A successful match at [(5, 8)] against [(n, 8)]: afterwards [n] is
    bound to the 5 found at index 0. *)
Lemma match_shape_success_sound_witness :
  match_shape "{}" ", " [5; 8] [SDim dim_n; SInt 8] [] "x"
  = (Return tt, [(dim_n, (5, "x[0]"))]) /\
  Forall (fun p => exists a, [5; 8] !! Z.to_nat p.1 = Some a
                             /\ elem_holds [(dim_n, (5, "x[0]"))] a p.2)
    (elements_in_order [5; 8] [SDim dim_n; SInt 8]).
Proof.
  assert (H : match_shape "{}" ", " [5; 8] [SDim dim_n; SInt 8] [] "x"
              = (Return tt, [(dim_n, (5, "x[0]"))])) by reflexivity.
  split; [exact H|].
  exact (proj2 (match_shape_success_sound "{}" ", " _ _ _ _ _ H)).
Defined.

(** ** Runs of the further properties *)

(** Matching [(5, 8)] against [(n, 8)] a second time, on the store the first
    match left. *)
Lemma match_shape_again_changes_nothing_witness :
  match_shape "{}" ", " [5; 8] [SDim dim_n; SInt 8] [] "x"
  = (Return tt, [(dim_n, (5, "x[0]"))]) /\
  match_shape "{}" ", " [5; 8] [SDim dim_n; SInt 8] [(dim_n, (5, "x[0]"))] "y"
  = (Return tt, [(dim_n, (5, "x[0]"))]).
Proof.
  assert (H : match_shape "{}" ", " [5; 8] [SDim dim_n; SInt 8] [] "x"
              = (Return tt, [(dim_n, (5, "x[0]"))])) by reflexivity.
  split; [exact H|].
  exact (match_shape_again_changes_nothing "{}" ", " _ _ _ _ _ "y" H).
Defined.

(** [(5, 8, 5)] against [(n, 8, n)], then [(2, 5)] against [(None, n)]. *)
Lemma shared_dim_forces_equal_dimensions_witness :
  (match_shape "{}" ", " [5; 8; 5] [SDim dim_n; SInt 8; SDim dim_n] [] "x"
   = (Return tt, [(dim_n, (5, "x[0]"))]) /\
   (0, SDim dim_n) ∈ elements_in_order [5; 8; 5] [SDim dim_n; SInt 8; SDim dim_n]) /\
  exists v,
    [5; 8; 5] !! Z.to_nat 0 = Some v /\
    (forall j, (j, SDim dim_n) ∈ elements_in_order [5; 8; 5]
                                  [SDim dim_n; SInt 8; SDim dim_n] ->
       [5; 8; 5] !! Z.to_nat j = Some v) /\
    (match_shape "{}" ", " [2; 5] [SNone; SDim dim_n] [(dim_n, (5, "x[0]"))] "y"
     = (Return tt, [(dim_n, (5, "x[0]"))]) ->
     forall i2, (i2, SDim dim_n) ∈ elements_in_order [2; 5] [SNone; SDim dim_n] ->
       [2; 5] !! Z.to_nat i2 = Some v).
Proof.
  assert (H : match_shape "{}" ", " [5; 8; 5] [SDim dim_n; SInt 8; SDim dim_n] [] "x"
              = (Return tt, [(dim_n, (5, "x[0]"))])) by reflexivity.
  assert (Hin : (0, SDim dim_n)
                ∈ elements_in_order [5; 8; 5] [SDim dim_n; SInt 8; SDim dim_n])
    by (vm_compute; left).
  split; [split; [exact H|exact Hin]|].
  exact (shared_dim_forces_equal_dimensions "{}" ", " _ [2; 5] _ [SNone; SDim dim_n]
           _ "y" _ _ [(dim_n, (5, "x[0]"))] _ _ H Hin).
Defined.

(** A conflicting match leaves [n] bound to 5 from [x[0]]. *)
Lemma match_shape_keeps_bindings_witness :
  ctx_lookup dim_n [(dim_n, (5, "x[0]"))] = Some (5, "x[0]") /\
  ctx_lookup dim_n
    (match_shape "{}" ", " [6; 2] [SDim dim_n; SInt 2] [(dim_n, (5, "x[0]"))] "y").2
  = Some (5, "x[0]").
Proof.
  split; [reflexivity|].
  exact (match_shape_keeps_bindings "{}" ", " [6; 2] [SDim dim_n; SInt 2]
           [(dim_n, (5, "x[0]"))] "y" dim_n 5 "x[0]" eq_refl).
Defined.

(** A failing match against [(None, 9)] leaves the store as given. *)
Lemma match_shape_without_dims_keeps_store_witness :
  existsb is_symbolic [SNone; SInt 9] = false /\
  (match_shape "{}" ", " [7; 8] [SNone; SInt 9] [(dim_n, (5, "x[0]"))] "y").2
  = [(dim_n, (5, "x[0]"))].
Proof.
  split; [reflexivity|].
  exact (match_shape_without_dims_keeps_store "{}" ", " [7; 8] [SNone; SInt 9]
           [(dim_n, (5, "x[0]"))] "y" eq_refl).
Defined.

(** [(3, 4)] against [(3, None)]. *)
Lemma exact_spec_matches_iff_witness :
  forallb is_exact [SInt 3; SNone] = true /\
  (match_shape "{}" ", " [3; 4] [SInt 3; SNone] [] "x" = (Return tt, [])
   <-> Forall2 agrees [3; 4] [SInt 3; SNone]).
Proof.
  split; [reflexivity|].
  exact (exact_spec_matches_iff "{}" ", " [3; 4] [SInt 3; SNone] [] "x" eq_refl).
Defined.

(** The mismatch of [(2, 7, 3, 5)] against [(..., 3, 4)] is at index 3. *)
Lemma diagnostic_locates_failure_witness :
  match_shape "{}" ", " [2; 7; 3; 5] [SEllipsis; SInt 3; SInt 4] [] "x"
  = (Raise (ShapeGuardErr
       (DimensionMismatchError 3 4 5 [SEllipsis; SInt 3; SInt 4] [2; 7; 3; 5]
          (Some "{}"))), []) /\
  exists index n a,
    (index, SInt n) ∈ elements_in_order [2; 7; 3; 5] [SEllipsis; SInt 3; SInt 4] /\
    0 <= index /\ [2; 7; 3; 5] !! Z.to_nat index = Some a /\ a <> n /\
    DimensionMismatchError 3 4 5 [SEllipsis; SInt 3; SInt 4] [2; 7; 3; 5] (Some "{}")
    = DimensionMismatchError index n a [SEllipsis; SInt 3; SInt 4] [2; 7; 3; 5]
        (Some (format_bindings "{}" ", " [])).
Proof.
  assert (H : match_shape "{}" ", " [2; 7; 3; 5] [SEllipsis; SInt 3; SInt 4] [] "x"
              = (Raise (ShapeGuardErr
                   (DimensionMismatchError 3 4 5 [SEllipsis; SInt 3; SInt 4]
                      [2; 7; 3; 5] (Some "{}"))), [])) by reflexivity.
  split; [exact H|].
  exact (diagnostic_locates_failure "{}" ", " _ _ _ _ _ _ H).
Defined.

(** A check on the store at address 1 leaves the store at address 2 alone. *)
Lemma check_shape_touches_only_its_store_witness :
  (({[ 1%positive := []; 2%positive := [(dim_n, (5, "a[0]"))] ]}
      : gmap positive UnificationContext) !! 2%positive
   = Some [(dim_n, (5, "a[0]"))] /\
   (Some 1%positive <> Some 2%positive \/
    shape_attr (mkPyValue "ndarray" (Some [7; 8])) = None)) /\
  (check_shape "{}" ", " (mkPyValue "ndarray" (Some [7; 8])) [SDim dim_n; SInt 8]
     "b" (Some 1%positive)
     {[ 1%positive := []; 2%positive := [(dim_n, (5, "a[0]"))] ]}).2 !! 2%positive
  = Some [(dim_n, (5, "a[0]"))].
Proof.
  assert (H1 : ({[ 1%positive := []; 2%positive := [(dim_n, (5, "a[0]"))] ]}
                  : gmap positive UnificationContext) !! 2%positive
               = Some [(dim_n, (5, "a[0]"))]) by reflexivity.
  assert (H2 : Some 1%positive <> Some 2%positive \/
               shape_attr (mkPyValue "ndarray" (Some [7; 8])) = None)
    by (left; discriminate).
  split; [split; [exact H1|exact H2]|].
  exact (check_shape_touches_only_its_store "{}" ", " _ _ _ _ _ _ _ H1 H2).
Defined.

(** The two checks of the docstring of [check_shape], chained on the store
    the first one created. *)
Lemma check_shape_chain_shares_dims_witness :
  (check_shape "{}" ", " (mkPyValue "ndarray" (Some [5; 128])) [SDim dim_n; SInt 128]
     "input" None ∅
   = (Return 1%positive, {[ 1%positive := [(dim_n, (5, "input[0]"))] ]}) /\
   check_shape "{}" ", " (mkPyValue "ndarray" (Some [5; 64])) [SDim dim_n; SInt 64]
     "output" (Some 1%positive) {[ 1%positive := [(dim_n, (5, "input[0]"))] ]}
   = (Return 1%positive, {[ 1%positive := [(dim_n, (5, "input[0]"))] ]})) /\
  1%positive = 1%positive /\
  exists v, [5; 128] !! Z.to_nat 0 = Some v /\ [5; 64] !! Z.to_nat 0 = Some v.
Proof.
  assert (H1 : check_shape "{}" ", " (mkPyValue "ndarray" (Some [5; 128]))
                 [SDim dim_n; SInt 128] "input" None ∅
               = (Return 1%positive, {[ 1%positive := [(dim_n, (5, "input[0]"))] ]}))
    by (vm_compute; reflexivity).
  assert (H2 : check_shape "{}" ", " (mkPyValue "ndarray" (Some [5; 64]))
                 [SDim dim_n; SInt 64] "output" (Some 1%positive)
                 {[ 1%positive := [(dim_n, (5, "input[0]"))] ]}
               = (Return 1%positive, {[ 1%positive := [(dim_n, (5, "input[0]"))] ]}))
    by (vm_compute; reflexivity).
  split; [split; [exact H1|exact H2]|].
  refine (check_shape_chain_shares_dims "{}" ", "
            (mkPyValue "ndarray" (Some [5; 128])) (mkPyValue "ndarray" (Some [5; 64]))
            [5; 128] [5; 64] _ _ _ _ _ _ _ _ _ _ dim_n 0 0
            eq_refl eq_refl H1 H2 _ _); vm_compute; left.
Defined.

(** The report of the mismatch of [(7, 8)] against [(None, 9)], named [x]. *)
Lemma check_shape_adds_argument_line_witness :
  match_shape "{}" ", " [7; 8] [SNone; SInt 9] [] "x"
  = (Raise (ShapeGuardErr
       (DimensionMismatchError 1 9 8 [SNone; SInt 9] [7; 8] (Some "{}"))), []) /\
  ShapeGuardError_lines Dim_name
    (set_argument (DimensionMismatchError 1 9 8 [SNone; SInt 9] [7; 8] (Some "{}")) "x")
  = ["ShapeGuardError:"; "  argument: x"; "  expected: (None, 9)";
     "  actual:   (7, 8)"; "  reason:   dim[1] expected 9, got 8"; "  bindings: {}"].
Proof.
  assert (H : match_shape "{}" ", " [7; 8] [SNone; SInt 9] [] "x"
              = (Raise (ShapeGuardErr
                   (DimensionMismatchError 1 9 8 [SNone; SInt 9] [7; 8] (Some "{}"))),
                 [])) by reflexivity.
  split; [exact H|].
  exact (check_shape_adds_argument_line "{}" ", " Dim_name _ _ _ _ _ _ H).
Defined.

(** [(2, 7, 3, 4)] against [(None, ..., 3, 4)]. *)
Lemma ellipsis_exact_spec_matches_iff_witness :
  (is_ellipsis SEllipsis = true /\
   forallb is_exact [SNone] = true /\
   forallb is_exact [SInt 3; SInt 4] = true) /\
  (match_shape "{}" ", " [2; 7; 3; 4] ([SNone] ++ SEllipsis :: [SInt 3; SInt 4]) [] "x"
   = (Return tt, [])
   <-> (length [SNone] + length [SInt 3; SInt 4] <= length [2; 7; 3; 4])%nat /\
       Forall2 agrees (take (length [SNone]) [2; 7; 3; 4]) [SNone] /\
       Forall2 agrees (drop (length [2; 7; 3; 4] - length [SInt 3; SInt 4]) [2; 7; 3; 4])
         [SInt 3; SInt 4]).
Proof.
  split; [repeat split|].
  exact (ellipsis_exact_spec_matches_iff "{}" ", " [SNone] [SInt 3; SInt 4] SEllipsis
           [2; 7; 3; 4] [] "x" eq_refl eq_refl eq_refl).
Defined.

(** ** The runs listed in the specification *)

Example exact_match_no_symbols :
  match_shape "{}" ", " [3; 4] [SInt 3; SInt 4] [] "x" = (Return tt, []).
Proof. reflexivity. Qed.

Example rank_mismatch_no_ellipsis :
  match_shape "{}" ", " [3; 4; 5] [SInt 3; SInt 4] [] "x"
  = (Raise (ShapeGuardErr
       (RankMismatchError (inl 2) 3 [SInt 3; SInt 4] [3; 4; 5] (Some "{}"))), []) /\
  reason (RankMismatchError (inl 2) 3 [SInt 3; SInt 4] [3; 4; 5] (Some "{}"))
  = Some "expected rank 2, got rank 3".
Proof. split; reflexivity. Qed.

Example wildcard_position :
  match_shape "{}" ", " [7; 9] [SNone; SInt 9] [] "x" = (Return tt, []).
Proof. reflexivity. Qed.

Example symbolic_binding_and_reuse :
  match_shape "{}" ", " [5; 8] [SDim dim_n; SInt 8] [] "x"
  = (Return tt, [(dim_n, (5, "x[0]"))]) /\
  match_shape "{}" ", " [5; 2] [SDim dim_n; SInt 2] [(dim_n, (5, "x[0]"))] "y"
  = (Return tt, [(dim_n, (5, "x[0]"))]) /\
  match_shape "{}" ", " [6; 2] [SDim dim_n; SInt 2] [(dim_n, (5, "x[0]"))] "y"
  = (Raise (ShapeGuardErr (UnificationError dim_n 5 "x[0]" 6 "y[0]")),
     [(dim_n, (5, "x[0]"))]).
Proof. repeat split. Qed.

Example same_name_distinct_dims :
  match_shape "{}" ", " [5; 6] [SDim (mkDim 1 "n"); SDim (mkDim 2 "n")] [] "x"
  = (Return tt, [(mkDim 1 "n", (5, "x[0]")); (mkDim 2 "n", (6, "x[1]"))]) /\
  format_bindings "{}" ", " [(mkDim 1 "n", (5, "x[0]")); (mkDim 2 "n", (6, "x[1]"))]
  = "n=5, n=6".
Proof. split; reflexivity. Qed.

Example ellipsis_zero_width :
  match_shape "{}" ", " [3; 4] [SEllipsis; SInt 3; SInt 4] [] "x" = (Return tt, []).
Proof. reflexivity. Qed.

Example ellipsis_multi_width :
  match_shape "{}" ", " [2; 7; 3; 4] [SEllipsis; SInt 3; SInt 4] [] "x" = (Return tt, []) /\
  reason (RankMismatchError (inr "2+") 1 [SEllipsis; SInt 3; SInt 4] [3] (Some "{}"))
  = Some "expected rank 2+, got rank 1".
Proof. split; reflexivity. Qed.

Example trailing_index_is_absolute :
  match_shape "{}" ", " [2; 7; 3; 5] [SEllipsis; SInt 3; SInt 4] [] "x"
  = (Raise (ShapeGuardErr
       (DimensionMismatchError 3 4 5 [SEllipsis; SInt 3; SInt 4] [2; 7; 3; 5]
          (Some "{}"))), []) /\
  reason (DimensionMismatchError 3 4 5 [SEllipsis; SInt 3; SInt 4] [2; 7; 3; 5]
            (Some "{}"))
  = Some "dim[3] expected 4, got 5".
Proof. split; reflexivity. Qed.

Example tuple_index_out_of_range :
  tuple_getitem [3; 4] 2 [] = (Raise (IndexError "tuple index out of range"), []) /\
  tuple_getitem [3; 4] (-1) [] = (Return 4, []) /\
  tuple_getitem [3; 4] (-3) [] = (Raise (IndexError "tuple index out of range"), []).
Proof. repeat split. Qed.
